(** * Agno Bot: the web client's API service and the context aggregator

    The repository ships the React client ([api.js], [App.js], [ChatInput.js],
    [LogoutButton.js], [LoginPage.js], [SignupPage.js]); its [ApiService]
    class and its handlers are embedded here from the JavaScript source.  The memory orchestration engine that the
    specification describes runs in the Python backend, whose sources are not
    among the files; its context aggregator is modelled from the text of the
    specification, and every definition of that model says so. *)

From Stdlib Require Import ZArith NArith QArith String Ascii List Sorted Lia Lqa.
From stdpp Require Import gmap strings list pretty.

Set Warnings "-register-all".
Local Open Scope string_scope.

(** ** JavaScript values and the promise outcomes of an async function *)

Module Js.

(** A JSON value, as [JSON.parse] produces it and [JSON.stringify] consumes it.
    Numbers are IEEE doubles in JavaScript; they are kept as rationals. *)
Inductive Json : Type :=
| JNull
| JBool (b : bool)
| JNum (n : Q)
| JStr (s : string)
| JArr (items : list Json)
| JObj (fields : list (string * Json)).

(** [!!v] for a JSON value. *)
Definition truthy (v : Json) : bool :=
  match v with
  | JNull => false
  | JBool b => b
  | JNum n => negb (Qeq_bool n 0)
  | JStr s => negb (String.eqb s "")
  | JArr _ | JObj _ => true
  end.

(** [!!s] for a nullable string: [null], [undefined] and [''] are falsy. *)
Definition truthy_str (s : option string) : bool :=
  match s with
  | Some s => negb (String.eqb s "")
  | None => false
  end.

Fixpoint assoc {A} (k : string) (l : list (string * A)) : option A :=
  match l with
  | [] => None
  | (k', v) :: rest => if String.eqb k k' then Some v else assoc k rest
  end.

(** [{ ...o, k: v }]: the key keeps its place when [o] already has it. *)
Fixpoint obj_set (k : string) (v : Json) (o : list (string * Json)) : list (string * Json) :=
  match o with
  | [] => [(k, v)]
  | (k', v') :: rest =>
      if String.eqb k k' then (k', v) :: rest else (k', v') :: obj_set k v rest
  end.

(** What an async function can settle with. [Error m] is [new Error(m)]; the
    engine's own errors are [SyntaxError] (a body that is not JSON) and
    [TypeError] (a property read on [null], a fetch that could not connect). *)
Inductive JsError : Type :=
| Error (message : Json)
| SyntaxError
| TypeError.

Inductive Outcome (A : Type) : Type :=
| Returned (a : A)
| Thrown (e : JsError).
Arguments Returned {A} a.
Arguments Thrown {A} e.

Definition is_thrown {A} (o : Outcome A) : bool :=
  match o with Thrown _ => true | Returned _ => false end.

(** [v.k]: [None] is [undefined]; reading a property of [null] throws. *)
Definition prop (v : Json) (k : string) : Outcome (option Json) :=
  match v with
  | JNull => Thrown TypeError
  | JObj fields => Returned (assoc k fields)
  | _ => Returned None
  end.

Definition truthy_opt (v : option Json) : bool :=
  match v with Some v => truthy v | None => false end.

(** The white space of ASCII: the space and the characters U+0009 to U+000D. *)
Definition is_ws (c : ascii) : bool :=
  let n := nat_of_ascii c in
  Nat.eqb n 32 || (Nat.leb 9 n && Nat.leb n 13).

(** The white space beyond ASCII that [trim] strips, by the bytes of its
    UTF-8 form: U+00A0 is [C2 A0]; U+1680 is [E1 9A 80]; U+2000 to U+200A,
    U+2028, U+2029 and U+202F are [E2 80] followed by [80] to [8A], [A8], [A9]
    and [AF]; U+205F is [E2 81 9F]; U+3000 is [E3 80 80]; and U+FEFF is
    [EF BB BF]. *)
Definition is_ws2 (c d : ascii) : bool :=
  Nat.eqb (nat_of_ascii c) 194 && Nat.eqb (nat_of_ascii d) 160.

Definition is_ws3 (c d e : ascii) : bool :=
  let c := nat_of_ascii c in
  let d := nat_of_ascii d in
  let e := nat_of_ascii e in
  (Nat.eqb c 225 && Nat.eqb d 154 && Nat.eqb e 128)
  || (Nat.eqb c 226 && Nat.eqb d 128
      && ((Nat.leb 128 e && Nat.leb e 138) || Nat.eqb e 168 || Nat.eqb e 169
          || Nat.eqb e 175))
  || (Nat.eqb c 226 && Nat.eqb d 129 && Nat.eqb e 159)
  || (Nat.eqb c 227 && Nat.eqb d 128 && Nat.eqb e 128)
  || (Nat.eqb c 239 && Nat.eqb d 187 && Nat.eqb e 191).

(** [!s.trim()]: the string is empty once its white space is trimmed, that
    is, it is made of white space only.  A string is held as the bytes of its
    UTF-8 form, as a string literal of this file is; the white space is the
    WhiteSpace and LineTerminator of ECMAScript, in that form. *)
Fixpoint blank (s : string) : bool :=
  match s with
  | EmptyString => true
  | String c rest =>
      if is_ws c then blank rest
      else
        match rest with
        | String d rest2 =>
            if is_ws2 c d then blank rest2
            else
              match rest2 with
              | String e rest3 => is_ws3 c d e && blank rest3
              | EmptyString => false
              end
        | EmptyString => false
        end
  end.

End Js.

(** ** The fetch API *)

Module Http.
Import Js.

(** The argument of [fetch]. [url] is the text of the template literal up to
    an interpolated [URLSearchParams] object, which [search] holds as its list
    of entries; [body] holds the value handed to [JSON.stringify]. *)
Record Request : Type := {
  url : string;
  search : option (list (string * string));
  method : option string;
  headers : list (string * string);
  body : option Json
}.

(** A response: [parsed] is what [response.json()] resolves with, [None] when
    the body is not valid JSON. *)
Record Response : Type := {
  ok : bool;
  statusText : string;
  parsed : option Json
}.

Inductive FetchResult : Type :=
| Rejects (e : JsError)
| Resolves (r : Response).

(** The world a call runs in: the clock as the sequence of its readings, the
    server as a function of the requests sent so far, and the log of requests. *)
Record World : Type := {
  clock : nat -> N;
  reads : nat;
  network : list Request -> Request -> FetchResult;
  sent : list Request
}.

Definition Api (A : Type) : Type := World -> Outcome A * World.

Definition ret {A} (a : A) : Api A := fun w => (Returned a, w).

Definition throw {A} (e : JsError) : Api A := fun w => (Thrown e, w).

Definition bind {A B} (c : Api A) (k : A -> Api B) : Api B :=
  fun w =>
    match c w with
    | (Returned a, w') => k a w'
    | (Thrown e, w') => (Thrown e, w')
    end.

#[global] Instance Api_ret : MRet Api := @ret.
#[global] Instance Api_bind : MBind Api := fun A B k c => bind c k.

(** [Date.now()] and [new Date()]: one reading of the clock. *)
Definition Date_now : Api N :=
  fun w =>
    (Returned (clock w (reads w)),
     {| clock := clock w; reads := S (reads w); network := network w; sent := sent w |}).

Definition fetch (req : Request) : Api Response :=
  fun w =>
    let w' := {| clock := clock w; reads := reads w; network := network w;
                 sent := sent w ++ [req] |} in
    match network w (sent w) req with
    | Rejects e => (Thrown e, w')
    | Resolves r => (Returned r, w')
    end.

(** [response.json()] *)
Definition json (r : Response) : Api Json :=
  match parsed r with
  | Some j => ret j
  | None => throw SyntaxError
  end.

Definition lift {A} (o : Outcome A) : Api A := fun w => (o, w).

Definition GET (u : string) (q : option (list (string * string))) : Request :=
  {| url := u; search := q; method := None; headers := []; body := None |}.

End Http.

(** ** [api.js]: the [ApiService] class *)

Module ApiService.
Import Js Http.

Definition API_BASE_URL : string := "http://localhost:8000".

Definition json_headers : list (string * string) :=
  [("Content-Type", "application/json")].

(** [userId || `user-${Date.now()}`]: the clock is read only when [userId]
    is falsy. *)
Definition user_id_or_fresh (userId : option string) : Api string :=
  if truthy_str userId then ret (default "" userId)
  else now ← Date_now; ret ("user-" +:+ pretty now).

(** [if (x) params.append(k, x)] *)
Definition append_if (k : string) (x : option string)
    (params : list (string * string)) : list (string * string) :=
  if truthy_str x then params ++ [(k, default "" x)] else params.

(** [if (!response.ok) throw new Error(`<what>: ${response.statusText}`);
     return response.json();] *)
Definition check_status (what : string) (response : Response) : Api Json :=
  if negb (ok response)
  then throw (Error (JStr (what +:+ ": " +:+ statusText response)))
  else json response.

(** [if (!response.ok) { const errorData = await response.json();
       throw new Error(errorData.detail || fallback); }
     return response.json();] *)
Definition check_detail (fallback : string) (response : Response) : Api Json :=
  if negb (ok response)
  then errorData ← json response;
       detail ← lift (prop errorData "detail");
       throw (Error (if truthy_opt detail then default JNull detail else JStr fallback))
  else json response.

(** *** Chat APIs *)

Definition createSession (userId : option string)
    (metadata : option (list (string * Json))) : Api Json :=
  user_id ← user_id_or_fresh userId;
  response ← fetch {|
    url := API_BASE_URL +:+ "/api/v1/chat/sessions";
    search := None;
    method := Some "POST";
    headers := json_headers;
    body := Some (JObj [
      ("user_id", JStr user_id);
      ("metadata", JObj (obj_set "source" (JStr "web-frontend") (default [] metadata)))])
  |};
  check_status "Failed to create session" response.

Definition sendMessage (message : string) (sessionId : string)
    (userId : option string) (memoryContext : option bool) : Api Json :=
  user_id ← user_id_or_fresh userId;
  response ← fetch {|
    url := API_BASE_URL +:+ "/api/v1/chat/send";
    search := None;
    method := Some "POST";
    headers := json_headers;
    body := Some (JObj [
      ("message", JStr message);
      ("session_id", JStr sessionId);
      ("user_id", JStr user_id);
      ("memory_context", JBool (default true memoryContext));
      ("context", JObj [])])
  |};
  check_detail "Failed to send message" response.

Definition getSession (sessionId : string) : Api Json :=
  response ← fetch (GET (API_BASE_URL +:+ "/api/v1/chat/sessions/" +:+ sessionId) None);
  check_status "Failed to get session" response.

Definition getSessionHistory (sessionId : string) (limit : option N) : Api Json :=
  response ← fetch (GET (API_BASE_URL +:+ "/api/v1/chat/sessions/" +:+ sessionId
                          +:+ "/history?limit=" +:+ pretty (default 50%N limit)) None);
  check_status "Failed to get session history" response.

Definition getSessionAnalytics (sessionId : string) : Api Json :=
  response ← fetch (GET (API_BASE_URL +:+ "/api/v1/chat/sessions/" +:+ sessionId
                          +:+ "/analytics") None);
  check_status "Failed to get session analytics" response.

Definition closeSession (sessionId : string) : Api Json :=
  response ← fetch {|
    url := API_BASE_URL +:+ "/api/v1/chat/sessions/" +:+ sessionId;
    search := None; method := Some "DELETE"; headers := []; body := None |};
  check_status "Failed to close session" response.

(** *** Memory APIs *)

Definition getMemoryContext (sessionId : string) (userId query : option string) : Api Json :=
  let params := append_if "query" query (append_if "user_id" userId []) in
  response ← fetch (GET (API_BASE_URL +:+ "/api/v1/memory/context/" +:+ sessionId +:+ "?")
                        (Some params));
  check_status "Failed to get memory context" response.

Definition searchMemory (query : string) (filters : option Json) (limit : option N) : Api Json :=
  response ← fetch {|
    url := API_BASE_URL +:+ "/api/v1/memory/search";
    search := None;
    method := Some "POST";
    headers := json_headers;
    body := Some (JObj [
      ("query", JStr query);
      ("query_type", JStr "semantic");
      ("filters", default (JObj []) filters);
      ("limit", JNum (inject_Z (Z.of_N (default 10%N limit))))])
  |};
  check_status "Failed to search memory" response.

Section Relationship.

(** [Number.prototype.toString] on a double, left to the engine. *)
Variable Number_toString : Q -> string.

Definition createRelationship (sourceEntity targetEntity relationshipType : string)
    (sessionId : option string) (confidence : option Q) : Api Json :=
  let params := [
    ("source_entity", sourceEntity);
    ("target_entity", targetEntity);
    ("relationship_type", relationshipType);
    ("confidence", Number_toString (default (8 # 10)%Q confidence))] in
  let params := append_if "session_id" sessionId params in
  response ← fetch {|
    url := API_BASE_URL +:+ "/api/v1/memory/relationships?";
    search := Some params;
    method := Some "POST"; headers := []; body := None |};
  check_status "Failed to create relationship" response.

End Relationship.

Definition getMemoryAnalytics (userId sessionId : option string) : Api Json :=
  let params := append_if "session_id" sessionId (append_if "user_id" userId []) in
  response ← fetch (GET (API_BASE_URL +:+ "/api/v1/memory/analytics?") (Some params));
  check_status "Failed to get memory analytics" response.

Definition getMemoryDebugInfo (sessionId : string) (userId : option string) : Api Json :=
  let params := append_if "user_id" userId [] in
  response ← fetch (GET (API_BASE_URL +:+ "/api/v1/memory/debug/" +:+ sessionId +:+ "?")
                        (Some params));
  check_status "Failed to get memory debug info" response.

Definition list_params (sessionId userId source : option string) (limit : option N)
    : list (string * string) :=
  append_if "source" source
    (append_if "user_id" userId
       (append_if "session_id" sessionId [("limit", pretty (default 50%N limit))])).

Definition getFacts (sessionId userId source : option string) (limit : option N) : Api Json :=
  let params := list_params sessionId userId source limit in
  response ← fetch (GET (API_BASE_URL +:+ "/api/v1/memory/facts?") (Some params));
  check_status "Failed to get facts" response.

Definition getRelationships (sessionId userId source : option string) (limit : option N)
    : Api Json :=
  let params := list_params sessionId userId source limit in
  response ← fetch (GET (API_BASE_URL +:+ "/api/v1/memory/relationships?") (Some params));
  check_status "Failed to get relationships" response.

Definition deleteFact (factId : string) : Api Json :=
  response ← fetch {|
    url := API_BASE_URL +:+ "/api/v1/memory/facts/" +:+ factId;
    search := None; method := Some "DELETE"; headers := []; body := None |};
  check_status "Failed to delete fact" response.

Definition deleteRelationship (relationshipId : string) : Api Json :=
  response ← fetch {|
    url := API_BASE_URL +:+ "/api/v1/memory/relationships/" +:+ relationshipId;
    search := None; method := Some "DELETE"; headers := []; body := None |};
  check_status "Failed to delete relationship" response.

Definition getMemoryStats (userId sessionId : option string) : Api Json :=
  let params := append_if "session_id" sessionId (append_if "user_id" userId []) in
  response ← fetch (GET (API_BASE_URL +:+ "/api/v1/memory/stats?") (Some params));
  check_status "Failed to get memory stats" response.

(** *** Authentication APIs *)

Definition login (email password : string) : Api Json :=
  response ← fetch {|
    url := API_BASE_URL +:+ "/api/v1/auth/login";
    search := None; method := Some "POST"; headers := json_headers;
    body := Some (JObj [("email", JStr email); ("password", JStr password)]) |};
  check_detail "Login failed" response.

Definition signup (username email password : string) : Api Json :=
  response ← fetch {|
    url := API_BASE_URL +:+ "/api/v1/auth/signup";
    search := None; method := Some "POST"; headers := json_headers;
    body := Some (JObj [("username", JStr username); ("email", JStr email);
                        ("password", JStr password)]) |};
  check_detail "Signup failed" response.

Definition logout (sessionToken : string) : Api Json :=
  response ← fetch {|
    url := API_BASE_URL +:+ "/api/v1/auth/logout";
    search := None; method := Some "POST";
    headers := [("X-Session-Token", sessionToken)]; body := None |};
  if negb (ok response) then throw (Error (JStr "Logout failed")) else json response.

(** *** Health check APIs *)

Definition getHealth : Api Json :=
  response ← fetch (GET (API_BASE_URL +:+ "/health") None);
  check_status "Health check failed" response.

Definition getChatHealth : Api Json :=
  response ← fetch (GET (API_BASE_URL +:+ "/api/v1/chat/health") None);
  check_status "Chat health check failed" response.

Definition getMemoryHealth : Api Json :=
  response ← fetch (GET (API_BASE_URL +:+ "/api/v1/memory/health") None);
  check_status "Memory health check failed" response.

Definition getWebSocketHealth : Api Json :=
  response ← fetch (GET (API_BASE_URL +:+ "/api/v1/ws/health") None);
  check_status "WebSocket health check failed" response.

End ApiService.

(** The request methods of the class, as one type of calls. *)
Module Calls.
Import Js Http.

Inductive Call : Type :=
| CreateSession (userId : option string) (metadata : option (list (string * Json)))
| SendMessage (message sessionId : string) (userId : option string) (memoryContext : option bool)
| GetSession (sessionId : string)
| GetSessionHistory (sessionId : string) (limit : option N)
| GetSessionAnalytics (sessionId : string)
| CloseSession (sessionId : string)
| GetMemoryContext (sessionId : string) (userId query : option string)
| SearchMemory (query : string) (filters : option Json) (limit : option N)
| CreateRelationship (sourceEntity targetEntity relationshipType : string)
    (sessionId : option string) (confidence : option Q)
| GetMemoryAnalytics (userId sessionId : option string)
| GetMemoryDebugInfo (sessionId : string) (userId : option string)
| GetFacts (sessionId userId source : option string) (limit : option N)
| GetRelationships (sessionId userId source : option string) (limit : option N)
| DeleteFact (factId : string)
| DeleteRelationship (relationshipId : string)
| GetMemoryStats (userId sessionId : option string)
| Login (email password : string)
| Signup (username email password : string)
| Logout (sessionToken : string)
| GetHealth
| GetChatHealth
| GetMemoryHealth
| GetWebSocketHealth.

Definition run (Number_toString : Q -> string) (c : Call) : Api Json :=
  match c with
  | CreateSession u m => ApiService.createSession u m
  | SendMessage m s u c => ApiService.sendMessage m s u c
  | GetSession s => ApiService.getSession s
  | GetSessionHistory s l => ApiService.getSessionHistory s l
  | GetSessionAnalytics s => ApiService.getSessionAnalytics s
  | CloseSession s => ApiService.closeSession s
  | GetMemoryContext s u q => ApiService.getMemoryContext s u q
  | SearchMemory q f l => ApiService.searchMemory q f l
  | CreateRelationship s t r sid c => ApiService.createRelationship Number_toString s t r sid c
  | GetMemoryAnalytics u s => ApiService.getMemoryAnalytics u s
  | GetMemoryDebugInfo s u => ApiService.getMemoryDebugInfo s u
  | GetFacts s u src l => ApiService.getFacts s u src l
  | GetRelationships s u src l => ApiService.getRelationships s u src l
  | DeleteFact f => ApiService.deleteFact f
  | DeleteRelationship r => ApiService.deleteRelationship r
  | GetMemoryStats u s => ApiService.getMemoryStats u s
  | Login e p => ApiService.login e p
  | Signup u e p => ApiService.signup u e p
  | Logout t => ApiService.logout t
  | GetHealth => ApiService.getHealth
  | GetChatHealth => ApiService.getChatHealth
  | GetMemoryHealth => ApiService.getMemoryHealth
  | GetWebSocketHealth => ApiService.getWebSocketHealth
  end.

(** The entry [k] of a request's [URLSearchParams]. *)
Definition param (k : string) (req : Request) : option string :=
  assoc k (default [] (search req)).

(** The field [k] of the object a request's body is serialised from. *)
Definition body_field (k : string) (req : Request) : option Json :=
  match body req with
  | Some (JObj fields) => assoc k fields
  | _ => None
  end.

(** A relationship as the data model wants it, read off the request that asks
    the backend to create it: distinct end points and a confidence in [0,1]. *)
Definition well_formed_relationship (Number_toString : Q -> string) (req : Request) : Prop :=
  param "source_entity" req <> param "target_entity" req /\
  exists c : Q, param "confidence" req = Some (Number_toString c) /\ (0 <= c)%Q /\ (c <= 1)%Q.

(** The request of [sendMessage], given the user id it settled on. *)
Definition sendMessage_request (message sessionId user_id : string) (mc : option bool)
    : Request := {|
  url := ApiService.API_BASE_URL +:+ "/api/v1/chat/send";
  search := None;
  method := Some "POST";
  headers := ApiService.json_headers;
  body := Some (JObj [
    ("message", JStr message);
    ("session_id", JStr sessionId);
    ("user_id", JStr user_id);
    ("memory_context", JBool (default true mc));
    ("context", JObj [])])
|}.

(** How a call that sent [req] from the world [w] settles: a rejected fetch
    and an unparsable body propagate, a response that is not [ok] throws, and
    an [ok] response with a JSON body is returned as parsed. *)
Definition settles (w : World) (req : Request) (out : Outcome Json) : Prop :=
  match network w (sent w) req with
  | Rejects e => out = Thrown e
  | Resolves r =>
      if ok r
      then out = match parsed r with Some j => Returned j | None => Thrown SyntaxError end
      else is_thrown out = true
  end.

(** A server that answers every request with status 200 and an HTML page. *)
Definition html_world : World := {|
  clock := fun _ => 0%N;
  reads := 0;
  network := fun _ _ => Resolves {| ok := true; statusText := "OK"; parsed := None |};
  sent := []
|}.

(** A server that accepts every request and answers with an empty object. *)
Definition accepting_world : World := {|
  clock := fun _ => 0%N;
  reads := 0;
  network := fun _ _ => Resolves {| ok := true; statusText := "OK"; parsed := Some (JObj []) |};
  sent := []
|}.

End Calls.

(** ** [App.js]: the chat handler *)

Module App.
Import Js Http.

Record Message : Type := {
  id : option Json;
  role : string;
  content : option Json;
  timestamp : string
}.

(** [err.message || fallback], kept as the pair it is computed from. *)
Inductive Shown : Type :=
| MessageOr (err : JsError) (fallback : string).

(** The pieces of React state the handler reads and sets. *)
Record State : Type := {
  messages : list Message;
  sessionId : option string;
  isLoading : bool;
  error : option Shown;
  memoryContext : option Json
}.

Section Handler.

(** [Date.prototype.toLocaleTimeString], left to the engine and the locale. *)
Variable toLocaleTimeString : N -> string.

(** The body of the [try] block, run on the state that the three setters
    before it have produced. *)
Definition send_and_show (messageText : string) (sid : string) (st : State) : Api State :=
  data ← ApiService.sendMessage messageText sid None None;
  message_id ← lift (prop data "message_id");
  message ← lift (prop data "message");
  date ← Date_now;
  let assistantMessage := {|
    id := message_id; role := "assistant"; content := message;
    timestamp := toLocaleTimeString date |} in
  memory_context ← lift (prop data "memory_context");
  ret {|
    messages := messages st ++ [assistantMessage];
    sessionId := sessionId st;
    isLoading := isLoading st;
    error := error st;
    memoryContext :=
      if truthy_opt memory_context then memory_context else memoryContext st |}.

Definition handleSendMessage (messageText : string) (st : State) (w : World) : State * World :=
  if blank messageText || negb (truthy_str (sessionId st)) then (st, w)
  else
    match (now ← Date_now; date ← Date_now; ret (now, date)) w with
    | (Thrown _, w) => (st, w)
    | (Returned (now, date), w) =>
        let userMessage := {|
          id := Some (JNum (inject_Z (Z.of_N now))); role := "user";
          content := Some (JStr messageText);
          timestamp := toLocaleTimeString date |} in
        let st := {|
          messages := messages st ++ [userMessage];
          sessionId := sessionId st;
          isLoading := true;
          error := None;
          memoryContext := memoryContext st |} in
        match send_and_show messageText (default "" (sessionId st)) st w with
        | (Returned st', w) =>
            ({| messages := messages st'; sessionId := sessionId st';
                isLoading := false; error := error st';
                memoryContext := memoryContext st' |}, w)
        | (Thrown err, w) =>
            ({| messages := messages st; sessionId := sessionId st;
                isLoading := false;
                error := Some (MessageOr err "Failed to send message");
                memoryContext := memoryContext st |}, w)
        end
    end.

End Handler.

End App.

(** ** [ChatInput.js]: the message form *)

Module ChatInput.
Import Js.

(** [disabled={isLoading || !inputMessage.trim()}] of the send button. *)
Definition send_disabled (isLoading : bool) (inputMessage : string) : bool :=
  isLoading || blank inputMessage.

(** [handleSubmit]: the input text afterwards, and what the parent's handler
    did to its own state, of whatever type. *)
Definition handleSubmit {X} (onSendMessage : string -> X -> X) (isLoading : bool)
    (inputMessage : string) (x : X) : string * X :=
  if blank inputMessage || isLoading then (inputMessage, x)
  else ("", onSendMessage inputMessage x).

End ChatInput.

(** ** [LogoutButton.js] *)

Module LogoutButton.
Import Js Http.

(** What the handler touches: local storage, the [auth] state of [App], and
    the route. *)
Record Browser : Type := {
  localStorage : gmap string string;
  auth : option Json;
  location : string
}.

Definition handleLogout (b : Browser) (w : World) : Browser * World :=
  let sessionToken := localStorage b !! "session_token" in
  let w :=
    if truthy_str sessionToken
    then (ApiService.logout (default "" sessionToken) w).2
    else w in
  ({| localStorage := delete "session_token" (delete "access_token" (localStorage b));
      auth := None;
      location := "/login" |}, w).

Definition logout_request (sessionToken : string) : Request := {|
  url := ApiService.API_BASE_URL +:+ "/api/v1/auth/logout";
  search := None; method := Some "POST";
  headers := [("X-Session-Token", sessionToken)]; body := None |}.

End LogoutButton.

(** ** The shape of the requests *)

Module Requests.
Import Js Http Calls.

(** What every request of the class looks like. *)
Definition plain_request (c : Call) (req : Request) : Prop :=
  String.prefix ApiService.API_BASE_URL (url req) = true /\
  (method req = None \/ method req = Some "POST" \/ method req = Some "DELETE") /\
  (body req <> None ->
   method req = Some "POST" /\ headers req = ApiService.json_headers) /\
  (forall k v, In (k, v) (headers req) ->
     k = "Content-Type" \/ (k = "X-Session-Token" /\ c = Logout v)).

(** The error of a call whose answer is not [ok], for the three methods that
    read the [detail] of the answer: it depends on the body alone. *)
Definition refusal (fallback : string) (r : Response) : JsError :=
  match parsed r with
  | None => SyntaxError
  | Some JNull => TypeError
  | Some (JObj fields) =>
      match assoc "detail" fields with
      | Some detail => if truthy detail then Error detail else Error (JStr fallback)
      | None => Error (JStr fallback)
      end
  | Some _ => Error (JStr fallback)
  end.

(** A server that refuses everything with the given body. *)
Definition refusing_world (body : option Json) : World := {|
  clock := fun _ => 0%N;
  reads := 0;
  network := fun _ _ =>
    Resolves {| ok := false; statusText := "Unprocessable Entity"; parsed := body |};
  sent := []
|}.

End Requests.

(** ** [App.js]: sessions, panels and the health check *)

Module AppShell.
Import Js Http App.

(** [new Date()] or [Date.now()] outside a promise chain: one reading. *)
Definition read_clock (w : World) : N * World :=
  (clock w (reads w),
   {| clock := clock w; reads := S (reads w); network := network w; sent := sent w |}).

(** [setError(s)] for a string literal [s]: the text itself, which is the
    message of an error made from it. *)
Definition shown_text (s : string) : Shown := MessageOr (Error (JStr s)) s.

(** A value stored in a state variable that starts as [null]. *)
Definition nullable (j : Json) : option Json :=
  match j with JNull => None | _ => Some j end.

(** The state variables of [App] besides those of [App.State]. The status of
    the system starts as [{}], here [None]; once set it has its four entries,
    each the [status] of an answer, [None] when the answer has none. *)
Record SystemStatus : Type := {
  main : option Json;
  chat : option Json;
  memory : option Json;
  websocket : option Json
}.

Record Panels : Type := {
  showMemory : bool;
  memorySearchQuery : string;
  memorySearchResults : option Json;
  sessionHistory : Json;
  showHistory : bool;
  systemStatus : option SystemStatus
}.

Definition all_error : SystemStatus :=
  {| main := Some (JStr "error"); chat := Some (JStr "error");
     memory := Some (JStr "error"); websocket := Some (JStr "error") |}.

Definition set_error (e : option Shown) (st : State) : State :=
  {| messages := messages st; sessionId := sessionId st; isLoading := isLoading st;
     error := e; memoryContext := memoryContext st |}.

Definition set_status (s : SystemStatus) (p : Panels) : Panels :=
  {| showMemory := showMemory p; memorySearchQuery := memorySearchQuery p;
     memorySearchResults := memorySearchResults p; sessionHistory := sessionHistory p;
     showHistory := showHistory p; systemStatus := Some s |}.

(** The request of [createSession()], given the user id it settled on. *)
Definition createSession_request (user_id : string) : Request := {|
  url := ApiService.API_BASE_URL +:+ "/api/v1/chat/sessions";
  search := None;
  method := Some "POST";
  headers := ApiService.json_headers;
  body := Some (JObj [
    ("user_id", JStr user_id);
    ("metadata", JObj [("source", JStr "web-frontend")])])
|}.

(** A server that answers every request with an object whose [id] is the
    given one and whose [status] is ['healthy']. *)
Definition session_world (sid : string) : World := {|
  clock := fun k => N.of_nat k;
  reads := 0;
  network := fun _ _ =>
    Resolves {| ok := true; statusText := "OK";
                parsed := Some (JObj [("id", JStr sid); ("status", JStr "healthy")]) |};
  sent := []
|}.

Definition no_state : State :=
  {| messages := []; sessionId := None; isLoading := false; error := None;
     memoryContext := None |}.

(** [sessionId] as a JSON value: the state holds a string or [null]. *)
Definition session_json (sessionId : option string) : Json :=
  match sessionId with Some s => JStr s | None => JNull end.

Section Shell.

Variable toLocaleTimeString : N -> string.

(** The form as [App] renders it:
    [<ChatInput onSendMessage={handleSendMessage} isLoading={isLoading} />]. *)
Definition submit_form (inputMessage : string) (st : State) (w : World)
    : string * (State * World) :=
  ChatInput.handleSubmit
    (fun m sw => handleSendMessage toLocaleTimeString m sw.1 sw.2)
    (isLoading st) inputMessage (st, w).

Definition welcome (date : N) : Message := {|
  id := Some (JStr "welcome");
  role := "assistant";
  content := Some (JStr "Hello! I'm Agno, your AI assistant. How can I help you today?");
  timestamp := toLocaleTimeString date
|}.

Definition started (sid : option string) (date : N) (st : State) : State :=
  {| messages := [welcome date]; sessionId := sid; isLoading := isLoading st;
     error := None; memoryContext := None |}.

(** [createNewSession] on the states of [App.State], whose session id is a
    string or [null].  The result is [None] when the [id] of the answer is
    neither: the handler goes on there all the same, which
    [Untyped.createNewSession] below follows, of which this is the part that
    stays within [App.State]. *)
Definition createNewSession (st : State) (w : World) : option (State * World) :=
  let failed := set_error (Some (shown_text "Failed to create chat session")) st in
  match ApiService.createSession None None w with
  | (Thrown _, w) => Some (failed, w)
  | (Returned session, w) =>
      match prop session "id" with
      | Thrown _ => Some (failed, w)
      | Returned (Some (JStr s)) =>
          let '(date, w) := read_clock w in Some (started (Some s) date st, w)
      | Returned (Some JNull) =>
          let '(date, w) := read_clock w in Some (started None date st, w)
      | Returned _ => None
      end
  end.

(** [clearChat]: five setters, then [createNewSession] on what they left. *)
Definition clearChat (st : State) (p : Panels) (w : World)
    : option (State * Panels * World) :=
  let st := {| messages := []; sessionId := sessionId st; isLoading := isLoading st;
               error := error st; memoryContext := None |} in
  let p := {| showMemory := showMemory p; memorySearchQuery := memorySearchQuery p;
              memorySearchResults := None; sessionHistory := JArr [];
              showHistory := false; systemStatus := systemStatus p |} in
  match createNewSession st w with
  | Some (st, w) => Some (st, p, w)
  | None => None
  end.

(** [searchMemory] of [App]. *)
Definition searchMemory (st : State) (p : Panels) (w : World) : State * Panels * World :=
  if blank (memorySearchQuery p) then (st, p, w)
  else
    match ApiService.searchMemory (memorySearchQuery p)
            (Some (JObj [("session_id", session_json (sessionId st))])) None w with
    | (Returned data, w) =>
        (st,
         {| showMemory := showMemory p; memorySearchQuery := memorySearchQuery p;
            memorySearchResults := nullable data; sessionHistory := sessionHistory p;
            showHistory := showHistory p; systemStatus := systemStatus p |},
         w)
    | (Thrown err, w) =>
        (set_error (Some (MessageOr err "Failed to search memory")) st, p, w)
    end.

(** [getMemoryContext] of [App]. *)
Definition getMemoryContext (st : State) (w : World) : State * World :=
  if negb (truthy_str (sessionId st)) then (st, w)
  else
    match ApiService.getMemoryContext (default "" (sessionId st)) None None w with
    | (Returned data, w) =>
        ({| messages := messages st; sessionId := sessionId st;
            isLoading := isLoading st; error := error st;
            memoryContext := nullable data |}, w)
    | (Thrown err, w) =>
        (set_error (Some (MessageOr err "Failed to get memory context")) st, w)
    end.

(** [getSessionHistory] of [App]: [data.messages || []] is shown. *)
Definition getSessionHistory (st : State) (p : Panels) (w : World)
    : State * Panels * World :=
  if negb (truthy_str (sessionId st)) then (st, p, w)
  else
    match ApiService.getSessionHistory (default "" (sessionId st)) None w with
    | (Returned data, w) =>
        match prop data "messages" with
        | Returned found =>
            (st,
             {| showMemory := showMemory p; memorySearchQuery := memorySearchQuery p;
                memorySearchResults := memorySearchResults p;
                sessionHistory :=
                  if truthy_opt found then default JNull found else JArr [];
                showHistory := true; systemStatus := systemStatus p |},
             w)
        | Thrown err =>
            (set_error (Some (MessageOr err "Failed to get session history")) st, p, w)
        end
    | (Thrown err, w) =>
        (set_error (Some (MessageOr err "Failed to get session history")) st, p, w)
    end.

End Shell.

(** [checkSystemHealth]. The four calls of [Promise.all] are started one after
    the other, each sending its request before the next one starts; the status
    is read off the four answers only when all four calls have returned. *)
Definition checkSystemHealth (p : Panels) (w : World) : Panels * World :=
  let '(health, w) := ApiService.getHealth w in
  let '(chatHealth, w) := ApiService.getChatHealth w in
  let '(memoryHealth, w) := ApiService.getMemoryHealth w in
  let '(wsHealth, w) := ApiService.getWebSocketHealth w in
  match health, chatHealth, memoryHealth, wsHealth with
  | Returned health, Returned chatHealth, Returned memoryHealth, Returned wsHealth =>
      match prop health "status", prop chatHealth "status",
            prop memoryHealth "status", prop wsHealth "status" with
      | Returned m, Returned c, Returned y, Returned s =>
          (set_status {| main := m; chat := c; memory := y; websocket := s |} p, w)
      | _, _, _, _ => (set_status all_error p, w)
      end
  | _, _, _, _ => (set_status all_error p, w)
  end.

(** The four requests of the health check, in the order they are sent. *)
Definition health_requests : list Request := [
  GET (ApiService.API_BASE_URL +:+ "/health") None;
  GET (ApiService.API_BASE_URL +:+ "/api/v1/chat/health") None;
  GET (ApiService.API_BASE_URL +:+ "/api/v1/memory/health") None;
  GET (ApiService.API_BASE_URL +:+ "/api/v1/ws/health") None
].

(** The JSON value that a request is answered with, if the answer is [ok],
    its body is JSON and the value is not [null]. *)
Definition answered_json (w : World) (log : list Request) (req : Request) : option Json :=
  match network w log req with
  | Resolves r =>
      if ok r
      then match parsed r with Some JNull => None | other => other end
      else None
  | Rejects _ => None
  end.

End AppShell.

(** ** [App.js] with the session id as JavaScript holds it

    [setSessionId(session.id)] stores whatever the answer carries as [id]: a
    string, any other value, or [undefined] when it carries none.  Here the
    state has room for all of them, and the two handlers that set and read
    the session id are total. *)

Module Untyped.
Import Js Http.

Record State : Type := {
  messages : list App.Message;
  sessionId : option Json;
  isLoading : bool;
  error : option App.Shown;
  memoryContext : option Json
}.

(** A state of [App.State], and back where the session id is a string or
    [null]. *)
Definition of_typed (st : App.State) : State :=
  {| messages := App.messages st;
     sessionId := Some (AppShell.session_json (App.sessionId st));
     isLoading := App.isLoading st; error := App.error st;
     memoryContext := App.memoryContext st |}.

Definition typed (st : State) : option App.State :=
  let with_id sid :=
    {| App.messages := messages st; App.sessionId := sid;
       App.isLoading := isLoading st; App.error := error st;
       App.memoryContext := memoryContext st |} in
  match sessionId st with
  | Some (JStr s) => Some (with_id (Some s))
  | Some JNull => Some (with_id None)
  | _ => None
  end.

Definition set_error (e : option App.Shown) (st : State) : State :=
  {| messages := messages st; sessionId := sessionId st; isLoading := isLoading st;
     error := e; memoryContext := memoryContext st |}.

(** [ApiService.sendMessage] called with a session id of any kind, which
    [JSON.stringify] writes as it is. *)
Definition sendMessage (message : string) (sessionId : Json)
    (userId : option string) (memoryContext : option bool) : Api Json :=
  user_id ← ApiService.user_id_or_fresh userId;
  response ← fetch {|
    url := ApiService.API_BASE_URL +:+ "/api/v1/chat/send";
    search := None;
    method := Some "POST";
    headers := ApiService.json_headers;
    body := Some (JObj [
      ("message", JStr message);
      ("session_id", sessionId);
      ("user_id", JStr user_id);
      ("memory_context", JBool (default true memoryContext));
      ("context", JObj [])])
  |};
  ApiService.check_detail "Failed to send message" response.

(** The request of [sendMessage], given the user id it settled on. *)
Definition sendMessage_request (message : string) (sessionId : Json)
    (user_id : string) (mc : option bool) : Request := {|
  url := ApiService.API_BASE_URL +:+ "/api/v1/chat/send";
  search := None;
  method := Some "POST";
  headers := ApiService.json_headers;
  body := Some (JObj [
    ("message", JStr message);
    ("session_id", sessionId);
    ("user_id", JStr user_id);
    ("memory_context", JBool (default true mc));
    ("context", JObj [])])
|}.

(** A server that answers every request with the given JSON value. *)
Definition answering_world (answer : Json) : World := {|
  clock := fun k => N.of_nat k;
  reads := 0;
  network := fun _ _ =>
    Resolves {| ok := true; statusText := "OK"; parsed := Some answer |};
  sent := []
|}.

Definition no_state : State :=
  {| messages := []; sessionId := Some JNull; isLoading := false; error := None;
     memoryContext := None |}.

Section Handlers.

Variable toLocaleTimeString : N -> string.

(** The body of the [try] block of [handleSendMessage]. *)
Definition send_and_show (messageText : string) (sid : Json) (st : State) : Api State :=
  data ← sendMessage messageText sid None None;
  message_id ← lift (prop data "message_id");
  message ← lift (prop data "message");
  date ← Date_now;
  let assistantMessage := {|
    App.id := message_id; App.role := "assistant"; App.content := message;
    App.timestamp := toLocaleTimeString date |} in
  memory_context ← lift (prop data "memory_context");
  ret {|
    messages := messages st ++ [assistantMessage];
    sessionId := sessionId st;
    isLoading := isLoading st;
    error := error st;
    memoryContext :=
      if truthy_opt memory_context then memory_context else memoryContext st |}.

(** [handleSendMessage]. *)
Definition handleSendMessage (messageText : string) (st : State) (w : World) : State * World :=
  if blank messageText || negb (truthy_opt (sessionId st)) then (st, w)
  else
    match (now ← Date_now; date ← Date_now; ret (now, date)) w with
    | (Thrown _, w) => (st, w)
    | (Returned (now, date), w) =>
        let userMessage := {|
          App.id := Some (JNum (inject_Z (Z.of_N now))); App.role := "user";
          App.content := Some (JStr messageText);
          App.timestamp := toLocaleTimeString date |} in
        let st := {|
          messages := messages st ++ [userMessage];
          sessionId := sessionId st;
          isLoading := true;
          error := None;
          memoryContext := memoryContext st |} in
        match send_and_show messageText (default JNull (sessionId st)) st w with
        | (Returned st', w) =>
            ({| messages := messages st'; sessionId := sessionId st';
                isLoading := false; error := error st';
                memoryContext := memoryContext st' |}, w)
        | (Thrown err, w) =>
            ({| messages := messages st; sessionId := sessionId st;
                isLoading := false;
                error := Some (App.MessageOr err "Failed to send message");
                memoryContext := memoryContext st |}, w)
        end
    end.

(** The state once the four setters of [createNewSession] have run. *)
Definition started (id : option Json) (date : N) (st : State) : State :=
  {| messages := [AppShell.welcome toLocaleTimeString date]; sessionId := id;
     isLoading := isLoading st; error := None; memoryContext := None |}.

(** [createNewSession]: [session.id] is read before the clock is, and a
    [session] that is [null] ends the [try] block there. *)
Definition createNewSession (st : State) (w : World) : State * World :=
  let failed :=
    set_error (Some (AppShell.shown_text "Failed to create chat session")) st in
  match ApiService.createSession None None w with
  | (Thrown _, w) => (failed, w)
  | (Returned session, w) =>
      match prop session "id" with
      | Thrown _ => (failed, w)
      | Returned id =>
          let '(date, w) := AppShell.read_clock w in (started id date st, w)
      end
  end.

End Handlers.

End Untyped.

(** ** [LoginPage.js], [SignupPage.js] and the route guard of [App.js] *)

Module Pages.
Import Js Http LogoutButton.

Section Storage.

(** [Number.prototype.toString], left to the engine. *)
Variable Number_toString : Q -> string.

(** [String(v)] for a JSON value: what [localStorage.setItem] stores. *)
Fixpoint ToString (j : Json) : string :=
  match j with
  | JNull => "null"
  | JBool true => "true"
  | JBool false => "false"
  | JNum n => Number_toString n
  | JStr s => s
  | JArr items =>
      String.concat ","
        (map (fun x => match x with JNull => "" | _ => ToString x end) items)
  | JObj _ => "[object Object]"
  end.

(** The same for a value that may be [undefined]. *)
Definition stored_form (v : option Json) : string :=
  match v with Some j => ToString j | None => "undefined" end.

(** [v.k] for a value that may be [undefined]. *)
Definition prop_of (v : option Json) (k : string) : Outcome (option Json) :=
  match v with Some j => prop j k | None => Thrown TypeError end.

(** [{ user: data.user, tokens: data.tokens }]; an entry that is [undefined]
    is left out. *)
Definition auth_object (user tokens : option Json) : Json :=
  JObj ((match user with Some u => [("user", u)] | None => [] end)
        ++ (match tokens with Some t => [("tokens", t)] | None => [] end))%list.

(** Whether [localStorage.setItem(k, v)] is accepted by a storage that holds
    [m]: the quota, and whether the site may store at all, are the browser's. *)
Variable accepts : gmap string string -> string -> string -> bool.

(** What ends the [try] block early: an error of the language or of the API
    call, or the [QuotaExceededError] of a write that the storage refuses. *)
Inductive Failure : Type :=
| Threw (e : JsError)
| QuotaExceededError.

(** [localStorage.setItem(k, v)]: [None] when it throws. *)
Definition set_item (k v : string) (b : Browser) : option Browser :=
  if accepts (localStorage b) k v
  then Some {| localStorage := <[k := v]> (localStorage b); auth := auth b;
               location := location b |}
  else None.

(** What follows the call of the API in the [try] block of both pages, one
    statement after the other: the browser as the block leaves it, and what
    ended the block early, if something did. *)
Definition sign_in (data : Json) (b : Browser) : Browser * option Failure :=
  match prop data "tokens" with
  | Thrown e => (b, Some (Threw e))
  | Returned tokens =>
      match prop_of tokens "access_token" with
      | Thrown e => (b, Some (Threw e))
      | Returned access =>
          match set_item "access_token" (stored_form access) b with
          | None => (b, Some QuotaExceededError)
          | Some b =>
              match prop_of tokens "session_token" with
              | Thrown e => (b, Some (Threw e))
              | Returned session =>
                  match set_item "session_token"
                          (stored_form
                             (if truthy_opt session then session else Some (JStr "")))
                          b with
                  | None => (b, Some QuotaExceededError)
                  | Some b =>
                      match prop data "user" with
                      | Thrown e => (b, Some (Threw e))
                      | Returned user =>
                          ({| localStorage := localStorage b;
                              auth := Some (auth_object user tokens);
                              location := "/" |}, None)
                      end
                  end
              end
          end
      end
  end.

(** [handleSubmit], given the call of the API. The page's own [error] state
    is set to [null] first and to [err.message] in the [catch] block; it is
    kept as what was caught. *)
Definition submit (call : Api Json) (b : Browser) (w : World)
    : Browser * option Failure * World :=
  match call w with
  | (Returned data, w) => (sign_in data b, w)
  | (Thrown err, w) => (b, Some (Threw err), w)
  end.

(** [handleSubmit] of [LoginPage] and of [SignupPage]. *)
Definition login_handleSubmit (email password : string) (b : Browser) (w : World)
    : Browser * option Failure * World :=
  submit (ApiService.login email password) b w.

Definition signup_handleSubmit (username email password : string) (b : Browser)
    (w : World) : Browser * option Failure * World :=
  submit (ApiService.signup username email password) b w.

End Storage.

(** The two requests of the pages. *)
Definition login_request (email password : string) : Request := {|
  url := ApiService.API_BASE_URL +:+ "/api/v1/auth/login";
  search := None; method := Some "POST"; headers := ApiService.json_headers;
  body := Some (JObj [("email", JStr email); ("password", JStr password)]) |}.

Definition signup_request (username email password : string) : Request := {|
  url := ApiService.API_BASE_URL +:+ "/api/v1/auth/signup";
  search := None; method := Some "POST"; headers := ApiService.json_headers;
  body := Some (JObj [("username", JStr username); ("email", JStr email);
                      ("password", JStr password)]) |}.

(** A storage that refuses nothing, and one that takes the values of at most
    [n] bytes. *)
Definition unlimited : gmap string string -> string -> string -> bool :=
  fun _ _ _ => true.

Definition room_for (n : nat) : gmap string string -> string -> string -> bool :=
  fun _ _ v => Nat.leb (String.length v) n.

(** A browser with nothing stored, on the login page. *)
Definition signed_out : Browser :=
  {| localStorage := ∅; auth := None; location := "/login" |}.

(** A server that answers every request with the given tokens. *)
Definition token_world (tokens : Json) : World := {|
  clock := fun _ => 0%N;
  reads := 0;
  network := fun _ _ =>
    Resolves {| ok := true; statusText := "OK";
                parsed := Some (JObj [("user", JStr "ann"); ("tokens", tokens)]) |};
  sent := []
|}.

(** The initial [auth] state of [App], read from local storage. *)
Definition auth_from_storage (storage : gmap string string) : option Json :=
  match storage !! "access_token" with
  | Some token =>
      if String.eqb token "" then None
      else Some (JObj [("tokens", JObj [
             ("access_token", JStr token);
             ("session_token",
              match storage !! "session_token" with
              | Some s => JStr s
              | None => JNull
              end)])])
  | None => None
  end.

(** What the route [/*] renders. *)
Inductive Screen : Type :=
| ChatUI
| NavigateToLogin.

Definition root_route (auth : option Json) : Screen :=
  match auth with
  | Some a => if truthy a then ChatUI else NavigateToLogin
  | None => NavigateToLogin
  end.

End Pages.

(** ** The context aggregator of the hybrid memory core

    The backend sources are not part of the files at hand: what follows is
    written from sections 3 and 4.3 of the specification. *)

Module Text.

Definition is_upper (c : ascii) : bool :=
  let n := nat_of_ascii c in Nat.leb 65 n && Nat.leb n 90.


Definition lower (c : ascii) : ascii :=
  if is_upper c then ascii_of_nat (nat_of_ascii c + 32) else c.

Definition is_space (c : ascii) : bool :=
  let n := nat_of_ascii c in Nat.eqb n 32 || (Nat.leb 9 n && Nat.leb n 13).

Definition flush (cur : string) : list string :=
  match cur with EmptyString => [] | _ => [cur] end.

(** Modelled from the spec: the lexical reading of a text that the duplicate
    test (4.3) rests on, the backend's tokenizer being missing. The maximal
    runs of characters that [keep] accepts, in lower case. *)
Fixpoint runs_from (keep : ascii -> bool) (cur : string) (s : string) : list string :=
  match s with
  | EmptyString => flush cur
  | String c rest =>
      if keep c then runs_from keep (cur +:+ String (lower c) EmptyString) rest
      else (flush cur ++ runs_from keep EmptyString rest)%list
  end.


(** Modelled from the spec: "normalized case/whitespace" (4.3): lower case,
    no outer white space, one space between the pieces. *)
Definition normalize (s : string) : string :=
  String.concat " " (runs_from (fun c => negb (is_space c)) EmptyString s).

End Text.

(** *** 3. Data model *)

Module Memory.

Inductive Backend : Type :=
| SemanticBackend
| FactBackend.

Definition is_fact_backend (b : Backend) : bool :=
  match b with FactBackend => true | SemanticBackend => false end.

(** Modelled from the spec: MemoryFact of section 3. *)
Record MemoryFact : Type := {
  fact_id : string;
  text : string;
  source : Backend;
  fact_session : string;
  fact_user : option string;
  fact_confidence : Q;
  fact_created : N
}.

(** Modelled from the spec: MemoryRelationship of section 3. *)
Record MemoryRelationship : Type := {
  rel_id : string;
  sourceEntity : string;
  targetEntity : string;
  relationshipType : string;
  rel_confidence : Q;
  rel_session : option string;
  rel_created : N
}.

(** Modelled from the spec: design note 9, [MemoryItem = Fact | Relationship]. *)
Inductive MemoryItem : Type :=
| Fact (f : MemoryFact)
| Relationship (r : MemoryRelationship).

Definition confidence (i : MemoryItem) : Q :=
  match i with Fact f => fact_confidence f | Relationship r => rel_confidence r end.

Definition created (i : MemoryItem) : N :=
  match i with Fact f => fact_created f | Relationship r => rel_created r end.

(** Only a fact has a text to compare. *)
Definition item_text (i : MemoryItem) : option string :=
  match i with Fact f => Some (text f) | Relationship _ => None end.

(** Modelled from the spec: an item of the union, with the backend that
    returned it and the backends recorded as its provenance. *)
Record Tagged : Type := {
  item : MemoryItem;
  origin : Backend;
  provenance : list Backend
}.

(** Modelled from the spec: what one backend returns (section 6), and
    RawMemoryResults of 4.2 with the status of each adapter. *)
Record BackendResult : Type := {
  facts : list MemoryFact;
  relationships : list MemoryRelationship
}.

Definition no_result : BackendResult := {| facts := []; relationships := [] |}.

Inductive Status : Type :=
| StatusOk
| StatusTimeout
| StatusError.

Record RawMemoryResults : Type := {
  from_semantic : BackendResult;
  semantic_status : Status;
  from_fact : BackendResult;
  fact_status : Status
}.

(** Modelled from the spec: MemoryContext of section 3. The items are kept
    in ranked order, each with its provenance; the fact list and the
    relationship list of the context are read off them. *)
Record MemoryContext : Type := {
  items : list Tagged;
  summary : option string;
  total_size : nat
}.

Definition context_facts (c : MemoryContext) : list (MemoryFact * list Backend) :=
  flat_map (fun t => match item t with
                     | Fact f => [(f, provenance t)]
                     | Relationship _ => []
                     end) (items c).

Definition context_relationships (c : MemoryContext)
    : list (MemoryRelationship * list Backend) :=
  flat_map (fun t => match item t with
                     | Relationship r => [(r, provenance t)]
                     | Fact _ => []
                     end) (items c).

Definition empty_context : MemoryContext :=
  {| items := []; summary := None; total_size := 0 |}.

End Memory.

(** *** 4.3 Context Aggregator and Deduplicator *)

Module Aggregator.
Import Text Memory.

(** A stable insertion sort by a boolean order. *)
Fixpoint insert_by {A} (le : A -> A -> bool) (x : A) (l : list A) : list A :=
  match l with
  | [] => [x]
  | y :: rest => if le x y then x :: y :: rest else y :: insert_by le x rest
  end.

Definition sort_by {A} (le : A -> A -> bool) (l : list A) : list A :=
  fold_right (insert_by le) [] l.

Definition Qlt_bool (a b : Q) : bool := negb (Qle_bool b a).

(** Modelled from the spec: step (a) of 4.3, the union of what both backends
    returned, each item tagged with the backend it came from. *)
Definition tag (b : Backend) (r : BackendResult) : list Tagged :=
  (map (fun f => {| item := Fact f; origin := b; provenance := [b] |}) (facts r)
   ++ map (fun x => {| item := Relationship x; origin := b; provenance := [b] |})
        (relationships r))%list.

Definition union (raw : RawMemoryResults) : list Tagged :=
  (tag SemanticBackend (from_semantic raw) ++ tag FactBackend (from_fact raw))%list.

(** Modelled from the spec: which of two duplicates is kept (4.3 b): the one
    with the higher confidence, the fact backend's on a tie. *)
Definition prefers (a b : Tagged) : bool :=
  Qlt_bool (confidence (item b)) (confidence (item a))
  || (Qeq_bool (confidence (item a)) (confidence (item b))
      && (is_fact_backend (origin a) || negb (is_fact_backend (origin b)))).

(** Modelled from the spec: the ranking of 4.3 c, by confidence and then by
    recency, both descending. *)
Definition ranks_before (a b : Tagged) : bool :=
  Qlt_bool (confidence (item b)) (confidence (item a))
  || (Qeq_bool (confidence (item a)) (confidence (item b))
      && N.leb (created (item b)) (created (item a))).

(** Modelled from the spec: step (d) of 4.3: items are taken in order until
    the next one would exceed the budget, and nothing after it is taken. *)
Fixpoint take_within {A} (size : A -> nat) (budget : nat) (l : list A) : list A :=
  match l with
  | [] => []
  | x :: rest =>
      if Nat.leb (size x) budget then x :: take_within size (budget - size x) rest
      else []
  end.

Fixpoint sum_sizes {A} (size : A -> nat) (l : list A) : nat :=
  match l with
  | [] => 0
  | x :: rest => size x + sum_sizes size rest
  end.

(** Modelled from the spec: step (d) of 4.3 as a property of its result.
    [taken] is what the budget admits of [ranked]: a prefix of it that is
    within the budget, and that either is all of it or is followed by an item
    that would exceed the budget. *)
Definition longest_within {A} (size : A -> nat) (budget : nat)
    (ranked taken : list A) : Prop :=
  sum_sizes size taken <= budget /\
  exists rest, ranked = (taken ++ rest)%list /\
    match rest with
    | [] => True
    | next :: _ => budget < sum_sizes size taken + size next
    end.



Section Aggregate.

(** The similarity measure, its threshold and the unit of size are
    configuration that the specification leaves open (design note 9). *)
Variable similarity : string -> string -> Q.
Variable threshold : Q.
Variable size_of : MemoryItem -> nat.

(** Modelled from the spec: the duplicate test of 4.3 b, on normalised texts;
    taken in both directions, so that it cannot depend on the order. *)
Definition near_duplicate (a b : MemoryItem) : bool :=
  match item_text a, item_text b with
  | Some s, Some t =>
      Qlt_bool threshold (similarity (normalize s) (normalize t))
      || Qlt_bool threshold (similarity (normalize t) (normalize s))
  | _, _ => false
  end.

Definition record_provenance (bs : list Backend) (k : Tagged) : Tagged :=
  {| item := item k; origin := origin k;
     provenance := (provenance k ++ bs)%list |}.

(** Modelled from the spec: one item meets the items kept so far. If it
    duplicates one of them, that one stays and takes over its provenance;
    otherwise it is kept too. *)
Fixpoint absorb (x : Tagged) (kept : list Tagged) : list Tagged :=
  match kept with
  | [] => [x]
  | k :: rest =>
      if near_duplicate (item k) (item x)
      then record_provenance (provenance x) k :: rest
      else k :: absorb x rest
  end.

(** Modelled from the spec: step (b) of 4.3. The items meet in the order of
    preference, so of two duplicates the preferred one is the one kept. *)
Definition deduplicate (l : list Tagged) : list Tagged :=
  fold_left (fun kept x => absorb x kept) (sort_by prefers l) [].





(** Modelled from the spec: [aggregate] of 4.3, the backend's aggregator being
    missing: union, deduplicate, rank, cut at the budget. *)
Definition aggregate (raw : RawMemoryResults) (budget : nat) : MemoryContext :=
  let ranked := sort_by ranks_before (deduplicate (union raw)) in
  let taken := take_within (fun t => size_of (item t)) budget ranked in
  {| items := taken; summary := None;
     total_size := sum_sizes (fun t => size_of (item t)) taken |}.

End Aggregate.

End Aggregator.

(** The hiking scenario of section 8, with one choice of the open
    configuration: word overlap as similarity, sizes in characters. *)
Module Scenario.
Import Text Memory Aggregator.








End Scenario.

(** * Properties of the API service and the chat handler *)

Module ApiFacts.
Import Js Http Calls.

Ltac run_api :=
  unfold ApiService.check_status, ApiService.check_detail, json, lift, throw, ret,
    mbind, mret, Api_bind, Api_ret, bind, fetch, GET; cbn.

Lemma check_status_settles (what : string) (w w' : World) (req : Request) (r : Response) :
  network w (sent w) req = Resolves r ->
  settles w req (ApiService.check_status what r w').1.
Proof.
  intros Hnet. unfold settles. rewrite Hnet.
  unfold ApiService.check_status, json, throw, ret.
  destruct (ok r); cbn; [ destruct (parsed r); reflexivity | reflexivity ].
Qed.

Lemma check_detail_settles (fallback : string) (w w' : World) (req : Request) (r : Response) :
  network w (sent w) req = Resolves r ->
  settles w req (ApiService.check_detail fallback r w').1.
Proof.
  intros Hnet. unfold settles. rewrite Hnet.
  unfold ApiService.check_detail.
  destruct (ok r); cbn.
  - unfold json, ret, throw. destruct (parsed r); reflexivity.
  - run_api. destruct (parsed r) as [j|]; cbn; [ | reflexivity ].
    destruct (prop j "detail"); reflexivity.
Qed.

Lemma check_status_frame (what : string) (r : Response) (w : World) :
  (ApiService.check_status what r w).2 = w.
Proof.
  unfold ApiService.check_status, json, throw, ret.
  destruct (ok r); cbn; [ destruct (parsed r) | ]; reflexivity.
Qed.

Lemma check_detail_frame (fallback : string) (r : Response) (w : World) :
  (ApiService.check_detail fallback r w).2 = w.
Proof.
  unfold ApiService.check_detail. run_api.
  destruct (ok r); cbn.
  - destruct (parsed r); reflexivity.
  - destruct (parsed r) as [j|]; cbn; [ | reflexivity ].
    destruct (prop j "detail"); reflexivity.
Qed.

(** One fetch followed by one of the two status checks. *)
Lemma fetch_then_check (check : Response -> Api Json) (req : Request) (w : World) :
  (forall r w', network w (sent w) req = Resolves r -> settles w req (check r w').1) ->
  (forall r w', (check r w').2 = w') ->
  sent ((fetch req ≫= check) w).2 = (sent w ++ [req])%list /\
  settles w req ((fetch req ≫= check) w).1.
Proof.
  intros Hs Hf. unfold mbind, Api_bind, bind, fetch.
  destruct (network w (sent w) req) as [e|r] eqn:Hnet.
  - cbn. split; [ reflexivity | ]. unfold settles. rewrite Hnet. reflexivity.
  - rewrite Hf. cbn. split; [ reflexivity | ]. apply Hs. reflexivity.
Qed.

Lemma fetch_then_check_world (check : Response -> Api Json) (req : Request) (w : World) :
  (forall r w', (check r w').2 = w') ->
  ((fetch req ≫= check) w).2
  = {| clock := clock w; reads := reads w; network := network w;
       sent := sent w ++ [req] |}.
Proof.
  intros Hf. unfold mbind, Api_bind, bind, fetch.
  destruct (network w (sent w) req); [ reflexivity | apply Hf ].
Qed.

Ltac one_fetch :=
  eexists; apply fetch_then_check; intros;
  first [ apply check_status_settles; assumption
        | apply check_detail_settles; assumption
        | apply check_status_frame
        | apply check_detail_frame ].

Ltac fresh_then_fetch userId w :=
  unfold ApiService.user_id_or_fresh;
  destruct (truthy_str userId);
  [ change (mret ?a ≫= ?k) with (k a)
  | match goal with
    | |- context [ (Date_now ≫= ?f) ≫= ?k ] =>
        change ((Date_now ≫= f) ≫= k)
          with (fun w0 : World => k ("user-" +:+ pretty (clock w0 (reads w0)))
                  {| clock := clock w0; reads := S (reads w0);
                     network := network w0; sent := sent w0 |})
    end ];
  cbv beta;
  [ one_fetch
  | match goal with
    | |- context [ fetch ?r ≫= ?chk ] =>
        exists r;
        destruct (fetch_then_check chk r
                    {| clock := clock w; reads := S (reads w);
                       network := network w; sent := sent w |}) as [Hsent Hset];
        [ intros; first [ apply check_status_settles | apply check_detail_settles ]; assumption
        | intros; first [ apply check_status_frame | apply check_detail_frame ]
        | split; [ exact Hsent | exact Hset ] ]
    end ].

(** C9 (as amended): every request method of the class (all but the factory
    of the WebSocket, which sends no request) sends exactly one request and
    settles by the response to it.  It throws whenever the response is not
    [ok], and returns the parsed body unchanged when the response is [ok] and
    its body is JSON; it throws as well when the fetch itself rejects and when
    the body of an [ok] response is not JSON. *)
Theorem request_method_settles (Number_toString : Q -> string) (c : Call) (w : World) :
  exists req : Request,
    sent (run Number_toString c w).2 = (sent w ++ [req])%list /\
    settles w req (run Number_toString c w).1.
Proof.
  destruct c; cbn [run];
    unfold ApiService.createSession, ApiService.sendMessage, ApiService.getSession,
      ApiService.getSessionHistory, ApiService.getSessionAnalytics,
      ApiService.closeSession, ApiService.getMemoryContext, ApiService.searchMemory,
      ApiService.createRelationship, ApiService.getMemoryAnalytics,
      ApiService.getMemoryDebugInfo, ApiService.getFacts, ApiService.getRelationships,
      ApiService.deleteFact, ApiService.deleteRelationship, ApiService.getMemoryStats,
      ApiService.login, ApiService.signup, ApiService.getHealth,
      ApiService.getChatHealth, ApiService.getMemoryHealth,
      ApiService.getWebSocketHealth; cbv zeta.
  1-2: fresh_then_fetch userId w.
  all: try one_fetch.
  (* logout spells its check out *)
  unfold ApiService.logout. eexists. apply fetch_then_check.
  - intros r w' Hnet. unfold settles. rewrite Hnet. unfold json, throw, ret.
    destruct (ok r); cbn; [ destruct (parsed r); reflexivity | reflexivity ].
  - intros r w'. unfold json, throw, ret.
    destruct (ok r); cbn; [ destruct (parsed r) | ]; reflexivity.
Qed.

(** C9 (counterexample): the server answers the health check with status 200
    and a body that is not JSON; the response is [ok], and the method throws. *)
Lemma ok_response_can_throw :
  network html_world (sent html_world) (GET (ApiService.API_BASE_URL +:+ "/health") None)
    = Resolves {| ok := true; statusText := "OK"; parsed := None |} /\
  (ApiService.getHealth html_world).1 = Thrown SyntaxError.
Proof. split; reflexivity. Qed.

(** *** [createRelationship] *)

Lemma createRelationship_request (toS : Q -> string) (s t ty : string)
    (sid : option string) (c : option Q) (w : World) :
  sent (ApiService.createRelationship toS s t ty sid c w).2
  = (sent w ++ [{|
       url := ApiService.API_BASE_URL +:+ "/api/v1/memory/relationships?";
       search := Some (ApiService.append_if "session_id" sid
                   [("source_entity", s); ("target_entity", t);
                    ("relationship_type", ty);
                    ("confidence", toS (default (8 # 10)%Q c))]);
       method := Some "POST"; headers := []; body := None |}])%list.
Proof.
  unfold ApiService.createRelationship. cbv zeta.
  match goal with
  | |- context [ fetch ?r ≫= ?chk ] =>
      destruct (fetch_then_check chk r w) as [Hsent _]
  end.
  - intros. apply check_status_settles. assumption.
  - intros. apply check_status_frame.
  - exact Hsent.
Qed.

(** X18: [createRelationship] validates nothing.  The request carries the
    caller's source, target and type unchanged and the confidence as printed,
    0.8 when omitted; so the relationship it asks the backend for has
    distinct end points and a confidence in [0,1] when the arguments do, and
    never when the caller passes the same entity twice.  What the backend
    makes of such a request is not the client's to say. *)
Theorem createRelationship_forwards (Number_toString : Q -> string) (s t ty : string)
    (sid : option string) (c : option Q) (w : World) :
  exists req : Request,
    sent (ApiService.createRelationship Number_toString s t ty sid c w).2
      = (sent w ++ [req])%list /\
    param "source_entity" req = Some s /\
    param "target_entity" req = Some t /\
    param "relationship_type" req = Some ty /\
    param "confidence" req = Some (Number_toString (default (8 # 10)%Q c)) /\
    (s <> t /\ (0 <= default (8 # 10) c)%Q /\ (default (8 # 10) c <= 1)%Q ->
     well_formed_relationship Number_toString req) /\
    (s = t -> ~ well_formed_relationship Number_toString req) /\
    (c = None -> s <> t -> well_formed_relationship Number_toString req).
Proof.
  eexists. split; [ apply createRelationship_request | ].
  assert (Hp : forall k v,
             assoc k [("source_entity", s); ("target_entity", t);
                      ("relationship_type", ty);
                      ("confidence", Number_toString (default (8 # 10)%Q c))] = Some v ->
             param k {| url := ApiService.API_BASE_URL +:+ "/api/v1/memory/relationships?";
                        search := Some (ApiService.append_if "session_id" sid
                          [("source_entity", s); ("target_entity", t);
                           ("relationship_type", ty);
                           ("confidence", Number_toString (default (8 # 10)%Q c))]);
                        method := Some "POST"; headers := []; body := None |} = Some v).
  { intros k v. unfold param, ApiService.append_if. cbn [search default].
    destruct (truthy_str sid); cbn;
      repeat (destruct (String.eqb k _); [ exact id | ]); discriminate. }
  pose proof (Hp "source_entity" s eq_refl) as Hs.
  pose proof (Hp "target_entity" t eq_refl) as Ht.
  pose proof (Hp "relationship_type" ty eq_refl) as Hty.
  pose proof (Hp "confidence" _ eq_refl) as Hc.
  repeat (split; [ assumption | ]).
  assert (Hwf : s <> t /\ (0 <= default (8 # 10) c)%Q /\ (default (8 # 10) c <= 1)%Q ->
                well_formed_relationship Number_toString
                  {| url := ApiService.API_BASE_URL +:+ "/api/v1/memory/relationships?";
                     search := Some (ApiService.append_if "session_id" sid
                       [("source_entity", s); ("target_entity", t);
                        ("relationship_type", ty);
                        ("confidence", Number_toString (default (8 # 10)%Q c))]);
                     method := Some "POST"; headers := []; body := None |}).
  { intros (Hne & H0 & H1). split.
    - rewrite Hs, Ht. congruence.
    - exists (default (8 # 10)%Q c). auto. }
  split; [ exact Hwf | split ].
  - intros -> [Hne _]. apply Hne. rewrite Hs, Ht. reflexivity.
  - intros -> Hne. apply Hwf. cbn. repeat split; [ assumption | | ]; discriminate.
Qed.

(** *** The user id of a chat turn *)

Lemma sendMessage_unfold (message sid : string) (mc : option bool) (w : World) :
  ApiService.sendMessage message sid None mc w
  = (fetch (sendMessage_request message sid ("user-" +:+ pretty (clock w (reads w))) mc)
       ≫= ApiService.check_detail "Failed to send message")
      {| clock := clock w; reads := S (reads w); network := network w; sent := sent w |}.
Proof. reflexivity. Qed.

Lemma sendMessage_world (message sid : string) (mc : option bool) (w : World) :
  (ApiService.sendMessage message sid None mc w).2
  = {| clock := clock w; reads := S (reads w); network := network w;
       sent := sent w ++ [sendMessage_request message sid
                            ("user-" +:+ pretty (clock w (reads w))) mc] |}.
Proof.
  rewrite sendMessage_unfold. unfold mbind, Api_bind, bind, fetch. cbn.
  destruct (network w (sent w) _); [ reflexivity | ].
  rewrite check_detail_frame. reflexivity.
Qed.

Lemma bind_unfold {A B} (c : Api A) (k : A -> Api B) (w : World) :
  (c ≫= k) w
  = match c w with
    | (Returned a, w') => k a w'
    | (Thrown e, w') => (Thrown e, w')
    end.
Proof. reflexivity. Qed.

Lemma ret_bind {A B} (a : A) (k : A -> Api B) (w : World) :
  (ret a ≫= k) w = k a w.
Proof. reflexivity. Qed.

(** The [try] block: it sends one request, never turns the clock back, and
    leaves the session id alone. *)
Lemma send_and_show_frame (toLocaleTimeString : N -> string) (m sid : string)
    (st : App.State) (w : World) :
  sent (App.send_and_show toLocaleTimeString m sid st w).2
    = (sent w ++ [sendMessage_request m sid ("user-" +:+ pretty (clock w (reads w))) None])%list /\
  clock (App.send_and_show toLocaleTimeString m sid st w).2 = clock w /\
  reads w < reads (App.send_and_show toLocaleTimeString m sid st w).2 /\
  forall st', (App.send_and_show toLocaleTimeString m sid st w).1 = Returned st' ->
              App.sessionId st' = App.sessionId st.
Proof.
  unfold App.send_and_show. rewrite bind_unfold.
  pose proof (sendMessage_world m sid None w) as Hw.
  destruct (ApiService.sendMessage m sid None None w) as [[data|e] w1];
    cbn in Hw; subst w1.
  - destruct data; cbn; unfold mbind, Api_bind, bind, lift, Date_now, ret; cbn;
      (split; [ reflexivity | split; [ reflexivity | split; [ lia | ] ] ]);
      intros st' [= <-]; reflexivity.
  - cbn. split; [ reflexivity | split; [ reflexivity | split; [ lia | discriminate ] ] ].
Qed.

(** One turn of the chat: the handler keeps the session id, reads the clock
    twice, and then sends the message with the third reading as user id. *)
Lemma handleSendMessage_turn (toLocaleTimeString : N -> string) (m : string)
    (st : App.State) (w : World) :
  blank m = false -> truthy_str (App.sessionId st) = true ->
  App.sessionId (App.handleSendMessage toLocaleTimeString m st w).1 = App.sessionId st /\
  clock (App.handleSendMessage toLocaleTimeString m st w).2 = clock w /\
  reads w + 2 < reads (App.handleSendMessage toLocaleTimeString m st w).2 /\
  sent (App.handleSendMessage toLocaleTimeString m st w).2
  = (sent w ++ [sendMessage_request m (default "" (App.sessionId st))
                  ("user-" +:+ pretty (clock w (2 + reads w))) None])%list.
Proof.
  intros Hm Hs. unfold App.handleSendMessage. rewrite Hm, Hs.
  cbn [orb negb]. rewrite bind_unfold. cbn [Date_now]. rewrite bind_unfold.
  cbn [Date_now mret Api_ret ret reads clock network sent App.sessionId].
  match goal with
  | |- context [ App.send_and_show ?f ?a ?b ?c ?d ] =>
      destruct (send_and_show_frame f a b c d) as (Hsent & Hclock & Hreads & Hsid);
      destruct (App.send_and_show f a b c d) as [[st'|e] w3]
  end; cbn in *.
  - specialize (Hsid st' eq_refl).
    split; [ assumption | split; [ assumption | split; [ lia | assumption ] ] ].
  - split; [ reflexivity | split; [ assumption | split; [ lia | assumption ] ] ].
Qed.

(** C10: when [sendMessage] is called without a user id, the [user_id] of the
    request body is ['user-'] followed by the clock reading taken in the call.
    The chat handler always calls it that way; so two turns of one session
    carry the same session id and two user ids made from two later readings
    of the clock, different whenever the readings are. *)
Theorem chat_turn_user_id_is_fresh :
  (forall (message sid : string) (mc : option bool) (w : World),
     exists req : Request,
       sent (ApiService.sendMessage message sid None mc w).2 = (sent w ++ [req])%list /\
       body_field "user_id" req
         = Some (JStr ("user-" +:+ pretty (clock w (reads w))))) /\
  (forall (toLocaleTimeString : N -> string) (m1 m2 : string) (st : App.State) (w : World),
     blank m1 = false -> blank m2 = false -> truthy_str (App.sessionId st) = true ->
     let turn1 := App.handleSendMessage toLocaleTimeString m1 st w in
     let turn2 := App.handleSendMessage toLocaleTimeString m2 turn1.1 turn1.2 in
     exists (req1 req2 : Request) (k1 k2 : nat),
       sent turn2.2 = (sent w ++ [req1; req2])%list /\
       k1 < k2 /\
       body_field "session_id" req1 = Some (JStr (default "" (App.sessionId st))) /\
       body_field "session_id" req2 = Some (JStr (default "" (App.sessionId st))) /\
       body_field "user_id" req1 = Some (JStr ("user-" +:+ pretty (clock w k1))) /\
       body_field "user_id" req2 = Some (JStr ("user-" +:+ pretty (clock w k2))) /\
       (clock w k1 <> clock w k2 ->
        body_field "user_id" req1 <> body_field "user_id" req2)).
Proof.
  split.
  - intros message sid mc w. eexists. rewrite sendMessage_world. cbn [sent].
    split; reflexivity.
  - intros toLTS m1 m2 st w Hm1 Hm2 Hs turn1 turn2.
    destruct (handleSendMessage_turn toLTS m1 st w Hm1 Hs) as (Hsid & Hclock & Hreads & Hsent).
    fold turn1 in Hsid, Hclock, Hreads, Hsent.
    assert (Hs' : truthy_str (App.sessionId turn1.1) = true) by (rewrite Hsid; exact Hs).
    destruct (handleSendMessage_turn toLTS m2 turn1.1 turn1.2 Hm2 Hs') as (_ & _ & _ & Hsent2).
    fold turn2 in Hsent2.
    eexists _, _, (2 + reads w), (2 + reads turn1.2).
    split; [ | split; [ lia | ] ].
    + rewrite Hsent2, Hsent, Hsid, Hclock, <- app_assoc. reflexivity.
    + cbn [body_field sendMessage_request body assoc String.eqb Ascii.eqb Bool.eqb].
      repeat (split; [ reflexivity | ]).
      intros Hne Heq. apply Hne.
      injection Heq as Heq. apply (inj pretty). exact Heq.
Qed.

(** The chat of session [s1] sends [hi] twice, one clock tick apart. *)
Lemma chat_turn_user_id_is_fresh_witness :
  let st := {| App.messages := []; App.sessionId := Some "s1"; App.isLoading := false;
               App.error := None; App.memoryContext := None |} in
  let w := {| clock := fun k => N.of_nat k; reads := 0;
              network := fun _ _ => Rejects TypeError; sent := [] |} in
  let turn1 := App.handleSendMessage (fun _ => "12:00:00") "hi" st w in
  let turn2 := App.handleSendMessage (fun _ => "12:00:00") "hi" turn1.1 turn1.2 in
  exists (req1 req2 : Request) (k1 k2 : nat),
    sent turn2.2 = ([] ++ [req1; req2])%list /\
    k1 < k2 /\
    body_field "session_id" req1 = Some (JStr "s1") /\
    body_field "session_id" req2 = Some (JStr "s1") /\
    body_field "user_id" req1 = Some (JStr ("user-" +:+ pretty (N.of_nat k1))) /\
    body_field "user_id" req2 = Some (JStr ("user-" +:+ pretty (N.of_nat k2))) /\
    (N.of_nat k1 <> N.of_nat k2 ->
     body_field "user_id" req1 <> body_field "user_id" req2).
Proof.
  exact (proj2 chat_turn_user_id_is_fresh (fun _ => "12:00:00") "hi" "hi"
           {| App.messages := []; App.sessionId := Some "s1"; App.isLoading := false;
              App.error := None; App.memoryContext := None |}
           {| clock := fun k => N.of_nat k; reads := 0;
              network := fun _ _ => Rejects TypeError; sent := [] |}
           eq_refl eq_refl eq_refl).
Defined.

(** *** Further properties of the handlers *)

(** [trim] strips more than the white space of ASCII: a no-break space
    (U+00A0), an ideographic space (U+3000) and a byte order mark (U+FEFF)
    make a blank string, a zero-width space (U+200B) does not. *)
Example trim_strips_unicode_space :
  let text := fold_right (fun n s => String (ascii_of_nat n) s) EmptyString in
  blank (text [194; 160]) = true /\
  blank (text [32; 227; 128; 128; 9; 239; 187; 191]) = true /\
  blank (text [226; 128; 139]) = false /\
  blank (text [104; 105; 194; 160]) = false.
Proof. repeat split; reflexivity. Qed.

(** The chat handler does nothing at all, and sends nothing, for a message
    that is blank or when there is no session yet. *)
Lemma blank_or_sessionless_turn_is_dropped (toLocaleTimeString : N -> string)
    (m : string) (st : App.State) (w : World) :
  blank m = true \/ truthy_str (App.sessionId st) = false ->
  App.handleSendMessage toLocaleTimeString m st w = (st, w).
Proof.
  intros [H | H]; unfold App.handleSendMessage; rewrite H.
  - reflexivity.
  - rewrite orb_true_r. reflexivity.
Qed.

(** X2: a turn that passes the guard ends with [isLoading] false and the
    user's message appended.  Either no error is shown and exactly one
    assistant message follows it, or the error of the failed call is shown
    with the fallback text, no assistant message is added and the memory
    context is left as it was. *)
Theorem chat_turn_settles (toLocaleTimeString : N -> string) (m : string)
    (st : App.State) (w : World) :
  blank m = false -> truthy_str (App.sessionId st) = true ->
  let st' := (App.handleSendMessage toLocaleTimeString m st w).1 in
  App.isLoading st' = false /\
  exists user : App.Message,
    App.role user = "user" /\ App.content user = Some (JStr m) /\
    ((App.error st' = None /\
      exists reply : App.Message,
        App.role reply = "assistant" /\
        App.messages st' = (App.messages st ++ [user; reply])%list)
     \/
     (exists err : JsError,
        App.error st' = Some (App.MessageOr err "Failed to send message") /\
        App.messages st' = (App.messages st ++ [user])%list /\
        App.memoryContext st' = App.memoryContext st)).
Proof.
  intros Hm Hs. cbv zeta. unfold App.handleSendMessage. rewrite Hm, Hs.
  cbn [orb negb]. rewrite bind_unfold. cbn [Date_now]. rewrite bind_unfold.
  cbn [Date_now mret Api_ret ret reads clock network sent App.sessionId App.messages].
  unfold App.send_and_show. rewrite bind_unfold.
  match goal with
  | |- context [ ApiService.sendMessage ?a ?b ?c ?d ?e ] =>
      destruct (ApiService.sendMessage a b c d e) as [[data|err] w1]
  end.
  - destruct data; cbn; unfold mbind, Api_bind, bind, lift, Date_now, ret; cbn;
      (split; [ reflexivity | ]);
      exists {| App.id := Some (JNum (inject_Z (Z.of_N (clock w (reads w)))));
                App.role := "user"; App.content := Some (JStr m);
                App.timestamp := toLocaleTimeString (clock w (S (reads w))) |};
      (split; [ reflexivity | split; [ reflexivity | ] ]);
      first [ right; eexists; split; [ reflexivity | split; reflexivity ]
            | left; split; [ reflexivity | ]; eexists;
              split; [ | rewrite <- app_assoc; reflexivity ]; reflexivity ].
  - cbn. split; [ reflexivity | ].
    exists {| App.id := Some (JNum (inject_Z (Z.of_N (clock w (reads w)))));
              App.role := "user"; App.content := Some (JStr m);
              App.timestamp := toLocaleTimeString (clock w (S (reads w))) |}.
    split; [ reflexivity | split; [ reflexivity | ] ].
    right. eexists. split; [ reflexivity | split; reflexivity ].
Qed.

Lemma chat_turn_settles_witness :
  let st' := (App.handleSendMessage (fun _ => "12:00:00") "hi"
                {| App.messages := []; App.sessionId := Some "s1"; App.isLoading := false;
                   App.error := None; App.memoryContext := None |} accepting_world).1 in
  App.isLoading st' = false /\
  exists user : App.Message,
    App.role user = "user" /\ App.content user = Some (JStr "hi") /\
    ((App.error st' = None /\
      exists reply : App.Message,
        App.role reply = "assistant" /\
        App.messages st' = ([] ++ [user; reply])%list)
     \/
     (exists err : JsError,
        App.error st' = Some (App.MessageOr err "Failed to send message") /\
        App.messages st' = ([] ++ [user])%list /\
        App.memoryContext st' = None)).
Proof.
  exact (chat_turn_settles (fun _ => "12:00:00") "hi"
           {| App.messages := []; App.sessionId := Some "s1"; App.isLoading := false;
              App.error := None; App.memoryContext := None |} accepting_world
           eq_refl eq_refl).
Defined.

(** X3: a user id that the caller gives, and that is not empty, is sent as it
    is by [sendMessage] and by [createSession], and the clock is not read. *)
Theorem given_user_id_is_sent (u : string) (w : World) :
  truthy_str (Some u) = true ->
  (forall message sid mc,
     exists req,
       sent (ApiService.sendMessage message sid (Some u) mc w).2 = (sent w ++ [req])%list /\
       body_field "user_id" req = Some (JStr u) /\
       reads (ApiService.sendMessage message sid (Some u) mc w).2 = reads w) /\
  (forall metadata,
     exists req,
       sent (ApiService.createSession (Some u) metadata w).2 = (sent w ++ [req])%list /\
       body_field "user_id" req = Some (JStr u) /\
       reads (ApiService.createSession (Some u) metadata w).2 = reads w).
Proof.
  intros Hu. split.
  - intros message sid mc. unfold ApiService.sendMessage, ApiService.user_id_or_fresh.
    rewrite Hu, ret_bind.
    eexists. rewrite fetch_then_check_world by apply check_detail_frame.
    cbn. split; [ reflexivity | split; reflexivity ].
  - intros metadata. unfold ApiService.createSession, ApiService.user_id_or_fresh.
    rewrite Hu, ret_bind.
    eexists. rewrite fetch_then_check_world by apply check_status_frame.
    cbn. split; [ reflexivity | split; reflexivity ].
Qed.

Lemma given_user_id_is_sent_witness :
  exists req,
    sent (ApiService.sendMessage "hi" "s1" (Some "u-42") None accepting_world).2
      = ([] ++ [req])%list /\
    body_field "user_id" req = Some (JStr "u-42") /\
    reads (ApiService.sendMessage "hi" "s1" (Some "u-42") None accepting_world).2 = 0.
Proof.
  exact (proj1 (given_user_id_is_sent "u-42" accepting_world eq_refl) "hi" "s1" None).
Defined.

Lemma assoc_obj_set (k k' : string) (v : Json) (o : list (string * Json)) :
  assoc k' (obj_set k v o) = if String.eqb k' k then Some v else assoc k' o.
Proof.
  induction o as [|[k0 v0] o IH]; cbn.
  - destruct (String.eqb k' k); reflexivity.
  - destruct (String.eqb k k0) eqn:Hk; cbn.
    + apply String.eqb_eq in Hk. subst k0.
      destruct (String.eqb k' k); reflexivity.
    + destruct (String.eqb k' k0) eqn:Hk'.
      * apply String.eqb_eq in Hk'. subst k0.
        rewrite String.eqb_sym, Hk. reflexivity.
      * exact IH.
Qed.

(** X4: the metadata that [createSession] sends always has [source] set to
    ['web-frontend'], whatever the caller put there, and every other key as
    the caller gave it. *)
Theorem createSession_marks_source (userId : option string)
    (metadata : option (list (string * Json))) (w : World) :
  exists (req : Request) (o : list (string * Json)),
    sent (ApiService.createSession userId metadata w).2 = (sent w ++ [req])%list /\
    body_field "metadata" req = Some (JObj o) /\
    assoc "source" o = Some (JStr "web-frontend") /\
    forall k, String.eqb k "source" = false -> assoc k o = assoc k (default [] metadata).
Proof.
  unfold ApiService.createSession, ApiService.user_id_or_fresh.
  destruct (truthy_str userId).
  - rewrite ret_bind.
    eexists _, _. rewrite fetch_then_check_world by apply check_status_frame.
    split; [ reflexivity | ].
    split; [ reflexivity | ].
    split; [ rewrite assoc_obj_set; reflexivity | ].
    intros k Hk. rewrite assoc_obj_set, Hk. reflexivity.
  - rewrite bind_unfold. rewrite bind_unfold. cbn [Date_now mret Api_ret ret].
    eexists _, _. rewrite fetch_then_check_world by apply check_status_frame.
    split; [ reflexivity | ].
    split; [ reflexivity | ].
    split; [ rewrite assoc_obj_set; reflexivity | ].
    intros k Hk. rewrite assoc_obj_set, Hk. reflexivity.
Qed.

(** X7: logging out always removes both tokens from local storage, whatever
    else is stored there, clears [auth] and goes to the login page, whether
    the call to the server succeeds, fails or is not made; the server is
    called, once, exactly when a non-empty session token was stored. *)
Theorem logout_always_clears (b : LogoutButton.Browser) (w : World) :
  let after := LogoutButton.handleLogout b w in
  LogoutButton.localStorage after.1 !! "access_token" = None /\
  LogoutButton.localStorage after.1 !! "session_token" = None /\
  (forall k, k <> "access_token" -> k <> "session_token" ->
             LogoutButton.localStorage after.1 !! k = LogoutButton.localStorage b !! k) /\
  LogoutButton.auth after.1 = None /\
  LogoutButton.location after.1 = "/login" /\
  sent after.2
  = (sent w ++
     match LogoutButton.localStorage b !! "session_token" with
     | Some token =>
         if String.eqb token "" then [] else [LogoutButton.logout_request token]
     | None => []
     end)%list.
Proof.
  cbv zeta. unfold LogoutButton.handleLogout. cbn [fst snd LogoutButton.localStorage
    LogoutButton.auth LogoutButton.location].
  split; [ rewrite lookup_delete_ne by discriminate; apply lookup_delete_eq | ].
  split; [ apply lookup_delete_eq | ].
  split; [ intros k H1 H2; rewrite !lookup_delete_ne by congruence; reflexivity | ].
  split; [ reflexivity | split; [ reflexivity | ] ].
  destruct (LogoutButton.localStorage b !! "session_token") as [token|]; cbn [truthy_str].
  - destruct (String.eqb token ""); cbn [negb default].
    + rewrite app_nil_r. reflexivity.
    + unfold ApiService.logout. rewrite fetch_then_check_world; [ reflexivity | ].
      intros r w'. unfold json, throw, ret.
      destruct (ok r); cbn; [ destruct (parsed r) | ]; reflexivity.
  - rewrite app_nil_r. reflexivity.
Qed.

End ApiFacts.

(** * Further properties of the client *)

Module ClientFacts.
Import Js Http Calls ApiFacts.

Lemma inline_check_frame (message : string) (r : Response) (w : World) :
  ((if negb (ok r) then throw (Error (JStr message)) else json r) w).2 = w.
Proof.
  unfold json, throw, ret.
  destruct (ok r); cbn; [ destruct (parsed r) | ]; reflexivity.
Qed.

Ltac sent_one :=
  first [ rewrite fetch_then_check_world by (intros; apply check_status_frame)
        | rewrite fetch_then_check_world by (intros; apply check_detail_frame)
        | rewrite fetch_then_check_world by (intros; apply inline_check_frame) ];
  cbn [sent].

Ltac unfold_methods :=
  unfold ApiService.createSession, ApiService.sendMessage, ApiService.getSession,
    ApiService.getSessionHistory, ApiService.getSessionAnalytics,
    ApiService.closeSession, ApiService.getMemoryContext, ApiService.searchMemory,
    ApiService.createRelationship, ApiService.getMemoryAnalytics,
    ApiService.getMemoryDebugInfo, ApiService.getFacts, ApiService.getRelationships,
    ApiService.deleteFact, ApiService.deleteRelationship, ApiService.getMemoryStats,
    ApiService.login, ApiService.signup, ApiService.logout, ApiService.getHealth,
    ApiService.getChatHealth, ApiService.getMemoryHealth,
    ApiService.getWebSocketHealth; cbv zeta.

Ltac plain :=
  unfold Requests.plain_request, GET; cbn [url method body headers];
  split; [ reflexivity | ];
  split; [ auto | ];
  split; [ first [ intros _; split; reflexivity | intros H; contradiction H; reflexivity ] | ];
  intros k v Hin; cbn in Hin;
  repeat (destruct Hin as [Hin | Hin]; [ injection Hin as <- <-; auto | ]);
  contradiction.

(** X8: every request of the class goes to the one base address, with the
    method GET, POST or DELETE; a body is only ever sent by POST and as JSON;
    and the only headers are the content type and, for [logout], the session
    token: no request carries the access token. *)
Theorem every_request_is_plain (Number_toString : Q -> string) (c : Call) (w : World) :
  exists req : Request,
    sent (run Number_toString c w).2 = (sent w ++ [req])%list /\
    Requests.plain_request c req.
Proof.
  destruct c; cbn [run]; unfold_methods.
  1-2: unfold ApiService.user_id_or_fresh; destruct (truthy_str userId);
       [ rewrite ret_bind
       | rewrite bind_unfold, bind_unfold; cbn [Date_now mret Api_ret ret] ].
  all: eexists; split; [ sent_one; reflexivity | plain ].
Qed.

(** *** Refused calls *)

Lemma check_detail_refused (fallback : string) (r : Response) (w : World) :
  ok r = false ->
  (ApiService.check_detail fallback r w).1 = Thrown (Requests.refusal fallback r).
Proof.
  intros Hok. unfold ApiService.check_detail, Requests.refusal. rewrite Hok. cbn [negb].
  rewrite bind_unfold. unfold json.
  destruct (parsed r) as [j|]; [ | reflexivity ].
  destruct j; try reflexivity.
  cbn. unfold mbind, Api_bind, bind, lift, throw. cbn.
  destruct (assoc "detail" fields) as [d|]; cbn; [ destruct (truthy d) | ]; reflexivity.
Qed.

Lemma fetch_answered (req : Request) (check : Response -> Api Json) (r : Response)
    (w : World) :
  network w (sent w) req = Resolves r ->
  ((fetch req ≫= check) w).1
  = (check r {| clock := clock w; reads := reads w; network := network w;
                sent := sent w ++ [req] |}).1.
Proof. intros Hnet. rewrite bind_unfold. unfold fetch. rewrite Hnet. reflexivity. Qed.

(** X5: when the server refuses a message, a login or a signup, the error that
    is thrown depends on the body of the answer alone: a syntax error for a
    body that is not JSON and a type error for the body [null], whatever the
    status was; the [detail] of a JSON object when that is truthy; and the
    method's own fallback text in every other case. *)
Theorem refused_call_reports_detail (w : World) (r : Response)
    (message sid : string) (userId : option string) (mc : option bool)
    (username email password : string) :
  (forall log req, network w log req = Resolves r) -> ok r = false ->
  (ApiService.sendMessage message sid userId mc w).1
    = Thrown (Requests.refusal "Failed to send message" r) /\
  (ApiService.login email password w).1 = Thrown (Requests.refusal "Login failed" r) /\
  (ApiService.signup username email password w).1
    = Thrown (Requests.refusal "Signup failed" r).
Proof.
  intros Hnet Hok. split; [ | split ].
  - unfold ApiService.sendMessage, ApiService.user_id_or_fresh.
    destruct (truthy_str userId).
    + rewrite ret_bind. rewrite (fetch_answered _ _ r) by apply Hnet.
      apply check_detail_refused. exact Hok.
    + rewrite bind_unfold, bind_unfold. cbn [Date_now mret Api_ret ret].
      rewrite (fetch_answered _ _ r) by apply Hnet.
      apply check_detail_refused. exact Hok.
  - unfold ApiService.login. rewrite (fetch_answered _ _ r) by apply Hnet.
    apply check_detail_refused. exact Hok.
  - unfold ApiService.signup. rewrite (fetch_answered _ _ r) by apply Hnet.
    apply check_detail_refused. exact Hok.
Qed.

(** A login that the server refuses with an HTML page: the status is lost. *)
Lemma refused_call_reports_detail_witness :
  (ApiService.login "a@b.c" "secret" (Requests.refusing_world None)).1
  = Thrown SyntaxError.
Proof.
  exact (proj1 (proj2
           (refused_call_reports_detail (Requests.refusing_world None)
              {| ok := false; statusText := "Unprocessable Entity"; parsed := None |}
              "hi" "s1" None None "ann" "a@b.c" "secret"
              (fun _ _ => eq_refl) eq_refl))).
Defined.

(** *** The chat form *)

(** X1: the chat handler sends a request exactly when the message is not
    blank and there is a session: then one request, with the message as typed
    and the session id of the state; otherwise nothing is sent and the state
    is left as it was. *)
Theorem chat_request_follows_guard (toLocaleTimeString : N -> string) (m : string)
    (st : App.State) (w : World) :
  let turn := App.handleSendMessage toLocaleTimeString m st w in
  if blank m || negb (truthy_str (App.sessionId st))
  then turn = (st, w)
  else
    sent turn.2
    = (sent w ++ [sendMessage_request m (default "" (App.sessionId st))
                    ("user-" +:+ pretty (clock w (2 + reads w))) None])%list /\
    App.sessionId turn.1 = App.sessionId st.
Proof.
  cbv zeta. destruct (blank m) eqn:Hm; cbn [orb].
  - apply blank_or_sessionless_turn_is_dropped. left. exact Hm.
  - destruct (truthy_str (App.sessionId st)) eqn:Hs; cbn [negb].
    + destruct (handleSendMessage_turn toLocaleTimeString m st w Hm Hs)
        as (Hsid & _ & _ & Hsent).
      split; assumption.
    + apply blank_or_sessionless_turn_is_dropped. right. exact Hs.
Qed.

(** X6: through the form, a message is sent exactly when the chat is not
    loading, the input is not blank and there is a session.  While the send
    button is disabled (loading, or a blank input) a submit changes nothing.  Without a session a submit
    of a message still empties the input, and the message is neither sent nor
    kept anywhere. *)
Theorem form_sends_or_loses (toLocaleTimeString : N -> string) (input : string)
    (st : App.State) (w : World) :
  let result := AppShell.submit_form toLocaleTimeString input st w in
  if ChatInput.send_disabled (App.isLoading st) input then result = (input, (st, w))
  else if truthy_str (App.sessionId st)
  then result.1 = "" /\
       App.sessionId result.2.1 = App.sessionId st /\
       sent result.2.2
       = (sent w ++ [sendMessage_request input (default "" (App.sessionId st))
                       ("user-" +:+ pretty (clock w (2 + reads w))) None])%list
  else result = ("", (st, w)).
Proof.
  cbv zeta. unfold AppShell.submit_form, ChatInput.handleSubmit, ChatInput.send_disabled.
  rewrite (orb_comm (blank input)).
  destruct (App.isLoading st || blank input) eqn:Hguard; [ reflexivity | ].
  apply orb_false_iff in Hguard. destruct Hguard as [_ Hblank].
  cbn [fst snd].
  destruct (truthy_str (App.sessionId st)) eqn:Hs.
  - destruct (handleSendMessage_turn toLocaleTimeString input st w Hblank Hs)
      as (Hsid & _ & _ & Hsent).
    split; [ reflexivity | split; assumption ].
  - rewrite blank_or_sessionless_turn_is_dropped by (right; exact Hs). reflexivity.
Qed.

(** *** Sessions *)

Lemma createSession_world (w : World) :
  (ApiService.createSession None None w).2
  = {| clock := clock w; reads := S (reads w); network := network w;
       sent := sent w ++ [AppShell.createSession_request
                            ("user-" +:+ pretty (clock w (reads w)))] |}.
Proof.
  unfold ApiService.createSession, ApiService.user_id_or_fresh. cbn [truthy_str].
  rewrite bind_unfold, bind_unfold. cbn [Date_now mret Api_ret ret].
  rewrite fetch_then_check_world by (intros; apply check_status_frame).
  reflexivity.
Qed.

(** One call of [sendMessage] with a session id of any kind. *)
Lemma any_id_sendMessage_world (message : string) (sid : Json) (mc : option bool)
    (w : World) :
  (Untyped.sendMessage message sid None mc w).2
  = {| clock := clock w; reads := S (reads w); network := network w;
       sent := sent w ++ [Untyped.sendMessage_request message sid
                            ("user-" +:+ pretty (clock w (reads w))) mc] |}.
Proof.
  unfold Untyped.sendMessage, ApiService.user_id_or_fresh. cbn [truthy_str].
  rewrite bind_unfold, bind_unfold. cbn [Date_now mret Api_ret ret].
  rewrite fetch_then_check_world by (intros; apply check_detail_frame).
  reflexivity.
Qed.

Lemma any_id_send_and_show_sent (toLocaleTimeString : N -> string) (m : string)
    (sid : Json) (st : Untyped.State) (w : World) :
  sent (Untyped.send_and_show toLocaleTimeString m sid st w).2
  = (sent w ++ [Untyped.sendMessage_request m sid
                  ("user-" +:+ pretty (clock w (reads w))) None])%list.
Proof.
  unfold Untyped.send_and_show. rewrite bind_unfold.
  pose proof (any_id_sendMessage_world m sid None w) as Hw.
  destruct (Untyped.sendMessage m sid None None w) as [[data|e] w1];
    cbn in Hw; subst w1; [ | reflexivity ].
  destruct data; cbn; unfold mbind, Api_bind, bind, lift, Date_now, ret; cbn;
    reflexivity.
Qed.

(** One turn of the chat, whatever the session id is, as long as it is
    truthy. *)
Lemma any_id_turn (toLocaleTimeString : N -> string) (m : string)
    (st : Untyped.State) (w : World) :
  blank m = false -> truthy_opt (Untyped.sessionId st) = true ->
  sent (Untyped.handleSendMessage toLocaleTimeString m st w).2
  = (sent w ++ [Untyped.sendMessage_request m (default JNull (Untyped.sessionId st))
                  ("user-" +:+ pretty (clock w (2 + reads w))) None])%list.
Proof.
  intros Hm Hs. unfold Untyped.handleSendMessage. rewrite Hm, Hs.
  cbn [orb negb]. rewrite bind_unfold. cbn [Date_now]. rewrite bind_unfold.
  cbn [Date_now mret Api_ret ret reads clock network sent Untyped.sessionId].
  match goal with
  | |- context [ Untyped.send_and_show ?f ?a ?b ?c ?d ] =>
      pose proof (any_id_send_and_show_sent f a b c d) as Hsent;
      destruct (Untyped.send_and_show f a b c d) as [[st'|e] w3]
  end; cbn in *; exact Hsent.
Qed.

(** The typed handlers are the untyped ones on the states whose session id
    is a string or [null]. *)
Lemma of_typed_typed (st : App.State) :
  Untyped.typed (Untyped.of_typed st) = Some st.
Proof. destruct st as [ms [s|] l e c]; reflexivity. Qed.

Lemma createNewSession_typed (toLocaleTimeString : N -> string) (st : App.State)
    (w : World) :
  AppShell.createNewSession toLocaleTimeString st w
  = match Untyped.createNewSession toLocaleTimeString (Untyped.of_typed st) w with
    | (st', w') =>
        match Untyped.typed st' with
        | Some st' => Some (st', w')
        | None => None
        end
    end.
Proof.
  unfold AppShell.createNewSession, Untyped.createNewSession. cbv zeta.
  destruct (ApiService.createSession None None w) as [[session|e] w1].
  - destruct (prop session "id") as [[id|]|e].
    + destruct id; reflexivity.
    + reflexivity.
    + destruct st as [ms [s|] l e0 c]; reflexivity.
  - destruct st as [ms [s|] l e0 c]; reflexivity.
Qed.

Lemma handleSendMessage_typed (toLocaleTimeString : N -> string) (m : string)
    (st : App.State) (w : World) :
  Untyped.handleSendMessage toLocaleTimeString m (Untyped.of_typed st) w
  = (Untyped.of_typed (App.handleSendMessage toLocaleTimeString m st w).1,
     (App.handleSendMessage toLocaleTimeString m st w).2).
Proof.
  unfold Untyped.handleSendMessage, App.handleSendMessage.
  destruct (blank m); [ reflexivity | ].
  destruct st as [ms [s|] l e c]; [ | reflexivity ].
  cbn [orb Untyped.of_typed Untyped.sessionId App.sessionId AppShell.session_json
       truthy_opt truthy truthy_str].
  destruct (negb (String.eqb s "")); [ | reflexivity ].
  cbn [negb]. rewrite !bind_unfold. cbn [Date_now]. rewrite !bind_unfold.
  cbn [Date_now mret Api_ret ret reads clock network sent default
       Untyped.messages Untyped.sessionId Untyped.memoryContext
       App.messages App.sessionId App.memoryContext].
  unfold Untyped.send_and_show, App.send_and_show, id. rewrite !bind_unfold.
  change (Untyped.sendMessage m (JStr s) None None)
    with (ApiService.sendMessage m s None None).
  match goal with
  | |- context [ ApiService.sendMessage m s None None ?w0 ] =>
      destruct (ApiService.sendMessage m s None None w0) as [[data|err] w1]
  end; [ | reflexivity ].
  destruct data; cbn; unfold mbind, Api_bind, bind, lift, Date_now, ret; cbn;
    try reflexivity;
    repeat match goal with
           | |- context [ truthy_opt ?x ] => destruct (truthy_opt x)
           end; reflexivity.
Qed.

(** X9: [createNewSession] always sends one request, which creates the
    session under a user id made from the clock.  Either the answer is read:
    then the chat shows the welcome message alone, with no error, no memory
    context and the [id] of the answer as session id, whatever that is, also
    when the answer has none; or the call threw or answered [null]: then the
    error text is shown and everything else, the previous session id and the
    messages included, is as it was.  After an answer whose [id] is missing
    or falsy the chat looks started, and every message typed is dropped. *)
Theorem createNewSession_starts_or_keeps (toLocaleTimeString : N -> string)
    (st : Untyped.State) (w : World) :
  let after := Untyped.createNewSession toLocaleTimeString st w in
  sent after.2
  = (sent w ++ [AppShell.createSession_request
                  ("user-" +:+ pretty (clock w (reads w)))])%list /\
  clock after.2 = clock w /\
  ((exists (session : Json) (id : option Json),
      (ApiService.createSession None None w).1 = Returned session /\
      prop session "id" = Returned id /\
      after.1 = Untyped.started toLocaleTimeString id (clock w (S (reads w))) st /\
      (truthy_opt id = false ->
       forall (m : string) (w2 : World),
         Untyped.handleSendMessage toLocaleTimeString m after.1 w2 = (after.1, w2)))
   \/
   ((forall session : Json,
       (ApiService.createSession None None w).1 = Returned session -> session = JNull) /\
    after.1 = Untyped.set_error
                (Some (AppShell.shown_text "Failed to create chat session")) st)).
Proof.
  cbv zeta. unfold Untyped.createNewSession.
  pose proof (createSession_world w) as Hw.
  destruct (ApiService.createSession None None w) as [[session|e] w1];
    cbn [fst snd] in *; subst w1.
  - destruct (prop session "id") as [id|e] eqn:Hid.
    + cbn. split; [ reflexivity | split; [ reflexivity | ] ].
      left. exists session, id.
      split; [ reflexivity | split; [ exact Hid | split; [ reflexivity | ] ] ].
      intros Hfalsy m w2. unfold Untyped.handleSendMessage.
      cbn [Untyped.started Untyped.sessionId]. rewrite Hfalsy.
      rewrite orb_true_r. reflexivity.
    + cbn. split; [ reflexivity | split; [ reflexivity | ] ].
      right. split; [ | reflexivity ].
      intros session' [= <-]. destruct session; try discriminate Hid. reflexivity.
  - cbn. split; [ reflexivity | split; [ reflexivity | ] ].
    right. split; [ discriminate | reflexivity ].
Qed.

(** What [createNewSession] leaves, without the answer it came from. *)
Lemma createNewSession_shape (toLocaleTimeString : N -> string)
    (st st' : App.State) (w w' : World) :
  AppShell.createNewSession toLocaleTimeString st w = Some (st', w') ->
  (st' = AppShell.started toLocaleTimeString (App.sessionId st')
           (clock w (S (reads w))) st /\
   w' = {| clock := clock w; reads := S (S (reads w)); network := network w;
           sent := sent w ++ [AppShell.createSession_request
                                ("user-" +:+ pretty (clock w (reads w)))] |})
  \/
  (st' = AppShell.set_error
           (Some (AppShell.shown_text "Failed to create chat session")) st /\
   sent w' = (sent w ++ [AppShell.createSession_request
                           ("user-" +:+ pretty (clock w (reads w)))])%list).
Proof.
  unfold AppShell.createNewSession. cbv zeta.
  pose proof (createSession_world w) as Hw.
  destruct (ApiService.createSession None None w) as [[session|e] w1];
    cbn [snd] in Hw; subst w1.
  - destruct (prop session "id") as [[id|]|e].
    + destruct id; try discriminate; intros [= <- <-]; left; split; reflexivity.
    + discriminate.
    + intros [= <- <-]. right. split; reflexivity.
  - intros [= <- <-]. right. split; reflexivity.
Qed.

(** X10: when the creation of the session fails during New Chat, the chat is
    emptied but the previous session id stays in place: the next message is
    sent to the previous session. *)
Theorem failed_new_chat_stays_in_old_session (toLocaleTimeString : N -> string)
    (st st' : App.State) (p p' : AppShell.Panels) (w w' : World) :
  AppShell.clearChat toLocaleTimeString st p w = Some (st', p', w') ->
  App.error st' <> None ->
  App.sessionId st' = App.sessionId st /\
  App.messages st' = [] /\
  App.memoryContext st' = None /\
  AppShell.memorySearchResults p' = None /\
  AppShell.showHistory p' = false /\
  forall (m : string) (w2 : World),
    blank m = false -> truthy_str (App.sessionId st) = true ->
    sent (App.handleSendMessage toLocaleTimeString m st' w2).2
    = (sent w2 ++ [sendMessage_request m (default "" (App.sessionId st))
                     ("user-" +:+ pretty (clock w2 (2 + reads w2))) None])%list.
Proof.
  unfold AppShell.clearChat.
  destruct (AppShell.createNewSession _ _ w) as [[st1 w1]|] eqn:Hnew; [ | discriminate ].
  intros [= <- <- <-] Herr.
  destruct (createNewSession_shape _ _ _ _ _ Hnew) as [[Hst _] | [Hst _]].
  - exfalso. apply Herr. rewrite Hst. reflexivity.
  - rewrite Hst. cbn.
    repeat (split; [ reflexivity | ]).
    intros m w2 Hm Hs.
    destruct (handleSendMessage_turn toLocaleTimeString m
                (AppShell.set_error
                   (Some (AppShell.shown_text "Failed to create chat session"))
                   {| App.messages := []; App.sessionId := App.sessionId st;
                      App.isLoading := App.isLoading st; App.error := App.error st;
                      App.memoryContext := None |}) w2 Hm Hs)
      as (_ & _ & _ & Hsent).
    exact Hsent.
Qed.

Lemma failed_new_chat_witness_run :
  AppShell.clearChat (fun _ => "12:00:00")
    {| App.messages := []; App.sessionId := Some "s-0"; App.isLoading := false;
       App.error := None; App.memoryContext := Some (JObj []) |}
    {| AppShell.showMemory := false; AppShell.memorySearchQuery := "";
       AppShell.memorySearchResults := None; AppShell.sessionHistory := JArr [];
       AppShell.showHistory := true; AppShell.systemStatus := None |}
    (Requests.refusing_world None)
  = Some ({| App.messages := []; App.sessionId := Some "s-0"; App.isLoading := false;
             App.error := Some (AppShell.shown_text "Failed to create chat session");
             App.memoryContext := None |},
          {| AppShell.showMemory := false; AppShell.memorySearchQuery := "";
             AppShell.memorySearchResults := None; AppShell.sessionHistory := JArr [];
             AppShell.showHistory := false; AppShell.systemStatus := None |},
          {| clock := fun _ => 0%N; reads := 1;
             network := network (Requests.refusing_world None);
             sent := [AppShell.createSession_request "user-0"] |}).
Proof. reflexivity. Qed.

Lemma failed_new_chat_stays_in_old_session_witness :
  App.sessionId
    {| App.messages := []; App.sessionId := Some "s-0"; App.isLoading := false;
       App.error := Some (AppShell.shown_text "Failed to create chat session");
       App.memoryContext := None |} = Some "s-0".
Proof.
  exact (proj1 (failed_new_chat_stays_in_old_session (fun _ => "12:00:00")
                  _ _ _ _ _ _ failed_new_chat_witness_run
                  ltac:(discriminate))).
Defined.

(** X11: the user id under which a session is created and the user id under
    which the next message is sent to it are made from two readings of the
    clock, four readings apart, whatever the session id is that the answer
    carried; the two user ids are the same exactly when the two readings are. *)
Theorem session_and_turn_have_two_users (toLocaleTimeString : N -> string)
    (st : Untyped.State) (w : World) (m : string) :
  let opened := Untyped.createNewSession toLocaleTimeString st w in
  Untyped.error opened.1 = None ->
  truthy_opt (Untyped.sessionId opened.1) = true ->
  blank m = false ->
  exists id : Json,
    Untyped.sessionId opened.1 = Some id /\
    sent (Untyped.handleSendMessage toLocaleTimeString m opened.1 opened.2).2
    = (sent w ++ [AppShell.createSession_request
                    ("user-" +:+ pretty (clock w (reads w)));
                  Untyped.sendMessage_request m id
                    ("user-" +:+ pretty (clock w (4 + reads w))) None])%list /\
    ("user-" +:+ pretty (clock w (reads w)) = "user-" +:+ pretty (clock w (4 + reads w))
     <-> clock w (reads w) = clock w (4 + reads w)).
Proof.
  cbv zeta. intros Herr Hs Hm.
  rewrite (any_id_turn _ _ _ _ Hm Hs).
  revert Herr Hs. unfold Untyped.createNewSession.
  pose proof (createSession_world w) as Hw.
  destruct (ApiService.createSession None None w) as [[session|e] w1];
    cbn [fst snd] in *; subst w1; [ | discriminate ].
  destruct (prop session "id") as [[id|]|e]; cbn; try discriminate.
  intros _ _. exists id.
  split; [ reflexivity | split ].
  - rewrite <- app_assoc. reflexivity.
  - split; [ intros Heq; injection Heq as Heq; apply (inj pretty); exact Heq
           | intros ->; reflexivity ].
Qed.

(** The server answers with a number as [id]. *)
Lemma session_and_turn_have_two_users_witness :
  let opened := Untyped.createNewSession (fun _ => "12:00:00") Untyped.no_state
                  (Untyped.answering_world (JObj [("id", JNum (inject_Z 7))])) in
  exists id : Json,
    Untyped.sessionId opened.1 = Some id /\
    sent (Untyped.handleSendMessage (fun _ => "12:00:00") "hi" opened.1 opened.2).2
    = ([] ++ [AppShell.createSession_request ("user-" +:+ pretty (N.of_nat 0));
              Untyped.sendMessage_request "hi" id
                ("user-" +:+ pretty (N.of_nat 4)) None])%list /\
    ("user-" +:+ pretty (N.of_nat 0) = "user-" +:+ pretty (N.of_nat 4)
     <-> N.of_nat 0 = N.of_nat 4).
Proof.
  exact (session_and_turn_have_two_users (fun _ => "12:00:00") Untyped.no_state
           (Untyped.answering_world (JObj [("id", JNum (inject_Z 7))])) "hi"
           eq_refl eq_refl eq_refl).
Defined.

(** *** The health check *)

Lemma health_call (what : string) (req : Request) (w : World) :
  (fetch req ≫= fun response => ApiService.check_status what response) w
  = (match AppShell.answered_json w (sent w) req with
     | Some j => Returned j
     | None =>
         ((fetch req ≫= fun response => ApiService.check_status what response) w).1
     end,
     {| clock := clock w; reads := reads w; network := network w;
        sent := sent w ++ [req] |}) /\
  (AppShell.answered_json w (sent w) req = None ->
   forall j, ((fetch req ≫= fun response => ApiService.check_status what response) w).1 = Returned j ->
             j = JNull).
Proof.
  unfold AppShell.answered_json.
  rewrite (surjective_pairing ((fetch req ≫= fun response => ApiService.check_status what response) w)).
  rewrite fetch_then_check_world by (intros; apply check_status_frame).
  rewrite bind_unfold. unfold fetch.
  destruct (network w (sent w) req) as [e|r]; cbn.
  - split; [ reflexivity | discriminate ].
  - unfold ApiService.check_status, json, throw, ret.
    destruct (ok r); cbn.
    + destruct (parsed r) as [j|]; cbn.
      * destruct j; (split; [ reflexivity | ]); try discriminate.
        intros _ j [= <-]. reflexivity.
      * split; [ reflexivity | discriminate ].
    + split; [ reflexivity | discriminate ].
Qed.

Ltac read_statuses :=
  repeat match goal with
         | |- context [ prop ?j "status" ] => destruct (prop j "status")
         end.

Lemma status_of_null_or_thrown (o : Outcome Json) :
  (forall j, o = Returned j -> j = JNull) ->
  match o with
  | Returned j => match prop j "status" with Returned _ => False | Thrown _ => True end
  | Thrown _ => True
  end.
Proof.
  intros H. destruct o as [j|e]; [ | exact I ].
  rewrite (H j eq_refl). exact I.
Qed.

(** X12: the health check always sends its four requests, in the same order,
    whatever the answers are, and changes nothing but the system status.  As
    soon as one of the four is not answered by an [ok] response with a JSON
    body other than [null], all four entries of the status read ['error']. *)
Theorem health_check_is_all_or_nothing (p : AppShell.Panels) (w : World) :
  let after := AppShell.checkSystemHealth p w in
  sent after.2 = (sent w ++ AppShell.health_requests)%list /\
  (exists s, after.1 = AppShell.set_status s p) /\
  forall (i : nat) (req : Request),
    AppShell.health_requests !! i = Some req ->
    AppShell.answered_json w (sent w ++ take i AppShell.health_requests) req = None ->
    after.1 = AppShell.set_status AppShell.all_error p.
Proof.
  cbv zeta. unfold AppShell.checkSystemHealth.
  unfold ApiService.getHealth, ApiService.getChatHealth, ApiService.getMemoryHealth,
    ApiService.getWebSocketHealth.
  set (r1 := GET (ApiService.API_BASE_URL +:+ "/health") None).
  set (r2 := GET (ApiService.API_BASE_URL +:+ "/api/v1/chat/health") None).
  set (r3 := GET (ApiService.API_BASE_URL +:+ "/api/v1/memory/health") None).
  set (r4 := GET (ApiService.API_BASE_URL +:+ "/api/v1/ws/health") None).
  destruct (health_call "Health check failed" r1 w) as [E1 N1].
  set (w1 := {| clock := clock w; reads := reads w; network := network w;
                sent := sent w ++ [r1] |}) in *.
  destruct (health_call "Chat health check failed" r2 w1) as [E2 N2].
  set (w2 := {| clock := clock w1; reads := reads w1; network := network w1;
                sent := sent w1 ++ [r2] |}) in *.
  destruct (health_call "Memory health check failed" r3 w2) as [E3 N3].
  set (w3 := {| clock := clock w2; reads := reads w2; network := network w2;
                sent := sent w2 ++ [r3] |}) in *.
  destruct (health_call "WebSocket health check failed" r4 w3) as [E4 N4].
  rewrite E1, E2, E3, E4. clear E1 E2 E3 E4.
  set (o1 := match AppShell.answered_json w (sent w) r1 with
             | Some j => Returned j | None => _ end) in *.
  set (o2 := match AppShell.answered_json w1 (sent w1) r2 with
             | Some j => Returned j | None => _ end) in *.
  set (o3 := match AppShell.answered_json w2 (sent w2) r3 with
             | Some j => Returned j | None => _ end) in *.
  set (o4 := match AppShell.answered_json w3 (sent w3) r4 with
             | Some j => Returned j | None => _ end) in *.
  assert (H1 : AppShell.answered_json w (sent w) r1 = None ->
               forall j, o1 = Returned j -> j = JNull).
  { intros Hn. subst o1. rewrite Hn. apply N1. exact Hn. }
  assert (H2 : AppShell.answered_json w1 (sent w1) r2 = None ->
               forall j, o2 = Returned j -> j = JNull).
  { intros Hn. subst o2. rewrite Hn. apply N2. exact Hn. }
  assert (H3 : AppShell.answered_json w2 (sent w2) r3 = None ->
               forall j, o3 = Returned j -> j = JNull).
  { intros Hn. subst o3. rewrite Hn. apply N3. exact Hn. }
  assert (H4 : AppShell.answered_json w3 (sent w3) r4 = None ->
               forall j, o4 = Returned j -> j = JNull).
  { intros Hn. subst o4. rewrite Hn. apply N4. exact Hn. }
  clearbody o1 o2 o3 o4. clear N1 N2 N3 N4.
  split; [ | split ].
  - destruct o1 as [j1|], o2 as [j2|], o3 as [j3|], o4 as [j4|];
      try (cbn; rewrite <- !app_assoc; reflexivity).
    destruct (prop j1 "status"), (prop j2 "status"), (prop j3 "status"),
      (prop j4 "status"); cbn; rewrite <- !app_assoc; reflexivity.
  - destruct o1 as [j1|], o2 as [j2|], o3 as [j3|], o4 as [j4|];
      try (eexists; reflexivity).
    destruct (prop j1 "status"), (prop j2 "status"), (prop j3 "status"),
      (prop j4 "status"); eexists; reflexivity.
  - intros i req Hi Hnone.
    destruct i as [|[|[|[|i]]]]; cbn in Hi; try discriminate;
      injection Hi as <-.
    + replace (sent w ++ take 0 AppShell.health_requests)%list with (sent w) in Hnone
        by (symmetry; apply app_nil_r).
      pose proof (status_of_null_or_thrown _ (H1 Hnone)) as Hn.
      destruct o1 as [j1|]; [ | destruct o2, o3, o4; read_statuses; reflexivity ].
      destruct (prop j1 "status"); [ contradiction | ].
      destruct o2 as [j2|], o3 as [j3|], o4 as [j4|]; read_statuses; reflexivity.
    + change (sent w ++ take 1 AppShell.health_requests)%list with (sent w1) in Hnone.
      pose proof (status_of_null_or_thrown _ (H2 Hnone)) as Hn.
      destruct o2 as [j2|]; [ | destruct o1, o3, o4; read_statuses; reflexivity ].
      destruct (prop j2 "status"); [ contradiction | ].
      destruct o1 as [j1|], o3 as [j3|], o4 as [j4|]; read_statuses; reflexivity.
    + replace (sent w ++ take 2 AppShell.health_requests)%list with (sent w2) in Hnone
        by (cbn; rewrite <- app_assoc; reflexivity).
      pose proof (status_of_null_or_thrown _ (H3 Hnone)) as Hn.
      destruct o3 as [j3|]; [ | destruct o1, o2, o4; read_statuses; reflexivity ].
      destruct (prop j3 "status"); [ contradiction | ].
      destruct o1 as [j1|], o2 as [j2|], o4 as [j4|]; read_statuses; reflexivity.
    + replace (sent w ++ take 3 AppShell.health_requests)%list with (sent w3) in Hnone
        by (cbn; rewrite <- !app_assoc; reflexivity).
      pose proof (status_of_null_or_thrown _ (H4 Hnone)) as Hn.
      destruct o4 as [j4|]; [ | destruct o1, o2, o3; read_statuses; reflexivity ].
      destruct (prop j4 "status"); [ contradiction | ].
      destruct o1 as [j1|], o2 as [j2|], o3 as [j3|]; read_statuses; reflexivity.
Qed.

(** *** The panels *)


(** X14: the history panel needs a session and a fetched history.  Without a
    session nothing is sent and nothing changes; with one, one request asks
    for the history of that session with the limit 50; and the panel is only
    opened by an answer that is [ok] and JSON, other than [null]. *)
Theorem history_opens_after_fetch (st : App.State) (p : AppShell.Panels) (w : World) :
  let after := AppShell.getSessionHistory st p w in
  let req := GET (ApiService.API_BASE_URL +:+ "/api/v1/chat/sessions/"
                  +:+ default "" (App.sessionId st) +:+ "/history?limit=50") None in
  if truthy_str (App.sessionId st)
  then sent after.2 = (sent w ++ [req])%list /\
       (AppShell.answered_json w (sent w) req = None ->
        AppShell.showHistory after.1.2 = AppShell.showHistory p /\
        AppShell.sessionHistory after.1.2 = AppShell.sessionHistory p) /\
       (AppShell.answered_json w (sent w) req <> None ->
        AppShell.showHistory after.1.2 = true /\ after.1.1 = st)
  else after = (st, p, w).
Proof.
  cbv zeta. unfold AppShell.getSessionHistory.
  destruct (truthy_str (App.sessionId st)); cbn [negb]; [ | reflexivity ].
  unfold ApiService.getSessionHistory. cbn [default].
  replace (pretty 50%N) with "50" by (vm_compute; reflexivity).
  change ("/history?limit=" +:+ "50") with "/history?limit=50".
  match goal with
  | |- context [ (fetch ?r ≫= ?k) w ] =>
      destruct (health_call "Failed to get session history" r w) as [E N];
      change ((fetch r ≫= k) w)
        with ((fetch r ≫= fun response =>
                 ApiService.check_status "Failed to get session history" response) w);
      rewrite E; clear E
  end.
  match goal with
  | |- context [ AppShell.answered_json w (sent w) ?r ] =>
      destruct (AppShell.answered_json w (sent w) r) as [j|] eqn:Hans
  end.
  - assert (Hj : j <> JNull).
    { intros ->. unfold AppShell.answered_json in Hans.
      destruct (network w (sent w) _) as [|r]; [ discriminate | ].
      destruct (ok r); [ | discriminate ].
      destruct (parsed r) as [[]|]; discriminate. }
    destruct j; try contradiction; cbn;
      (split; [ reflexivity | split; [ intros H; discriminate H | intros _; split; reflexivity ] ]).
  - specialize (N eq_refl).
    match goal with
    | |- context [ ((fetch ?r ≫= ?k) w).1 ] => destruct ((fetch r ≫= k) w).1 as [j|e] eqn:Ho
    end.
    + rewrite (N j eq_refl). cbn.
      split; [ reflexivity | split; [ intros _; split; reflexivity | intros H; contradiction H; reflexivity ] ].
    + cbn. split; [ reflexivity | split; [ intros _; split; reflexivity | intros H; contradiction H; reflexivity ] ].
Qed.

(** *** Signing in and out *)

(** The statements after the API call, once the tokens are read. *)
Lemma sign_in_run (toS : Q -> string)
    (accepts : gmap string string -> string -> string -> bool) (data tokens : Json)
    (access session : option Json) (b : LogoutButton.Browser) :
  prop data "tokens" = Returned (Some tokens) ->
  prop tokens "access_token" = Returned access ->
  prop tokens "session_token" = Returned session ->
  exists user,
    prop data "user" = Returned user /\
    Pages.sign_in toS accepts data b
    = if accepts (LogoutButton.localStorage b) "access_token"
           (Pages.stored_form toS access)
      then
        if accepts (<["access_token" := Pages.stored_form toS access]>
                      (LogoutButton.localStorage b)) "session_token"
             (Pages.stored_form toS
                (if truthy_opt session then session else Some (JStr "")))
        then ({| LogoutButton.localStorage :=
                   <["session_token" :=
                       Pages.stored_form toS
                         (if truthy_opt session then session else Some (JStr ""))]>
                     (<["access_token" := Pages.stored_form toS access]>
                        (LogoutButton.localStorage b));
                 LogoutButton.auth := Some (Pages.auth_object user (Some tokens));
                 LogoutButton.location := "/" |}, None)
        else ({| LogoutButton.localStorage :=
                   <["access_token" := Pages.stored_form toS access]>
                     (LogoutButton.localStorage b);
                 LogoutButton.auth := LogoutButton.auth b;
                 LogoutButton.location := LogoutButton.location b |},
              Some Pages.QuotaExceededError)
      else (b, Some Pages.QuotaExceededError).
Proof.
  intros Ht Ha Hs.
  assert (Hu : exists user, prop data "user" = Returned user).
  { destruct data; try discriminate Ht; eexists; reflexivity. }
  destruct Hu as [user Hu]. exists user. split; [ exact Hu | ].
  unfold Pages.sign_in. rewrite Ht. cbn [Pages.prop_of]. rewrite Ha, Hs, Hu.
  unfold Pages.set_item.
  destruct (accepts (LogoutButton.localStorage b) "access_token" _);
    [ | reflexivity ].
  cbn [LogoutButton.localStorage LogoutButton.auth LogoutButton.location].
  destruct (accepts _ "session_token" _); reflexivity.
Qed.

(** The three ways the statements after the API call can end: before any
    write, between the two writes, and after both. *)
Lemma sign_in_cases (toS : Q -> string)
    (accepts : gmap string string -> string -> string -> bool) (data : Json)
    (b : LogoutButton.Browser) :
  (exists e, Pages.sign_in toS accepts data b = (b, Some e)) \/
  (exists tokens access,
     prop data "tokens" = Returned (Some tokens) /\
     prop tokens "access_token" = Returned access /\
     accepts (LogoutButton.localStorage b) "access_token" (Pages.stored_form toS access)
       = true /\
     ((exists session,
         prop tokens "session_token" = Returned session /\
         accepts (<["access_token" := Pages.stored_form toS access]>
                    (LogoutButton.localStorage b)) "session_token"
           (Pages.stored_form toS
              (if truthy_opt session then session else Some (JStr ""))) = false /\
         Pages.sign_in toS accepts data b
         = ({| LogoutButton.localStorage :=
                 <["access_token" := Pages.stored_form toS access]>
                   (LogoutButton.localStorage b);
               LogoutButton.auth := LogoutButton.auth b;
               LogoutButton.location := LogoutButton.location b |},
            Some Pages.QuotaExceededError))
      \/
      (exists session user,
         prop tokens "session_token" = Returned session /\
         Pages.sign_in toS accepts data b
         = ({| LogoutButton.localStorage :=
                 <["session_token" :=
                     Pages.stored_form toS
                       (if truthy_opt session then session else Some (JStr ""))]>
                   (<["access_token" := Pages.stored_form toS access]>
                      (LogoutButton.localStorage b));
               LogoutButton.auth := Some (Pages.auth_object user (Some tokens));
               LogoutButton.location := "/" |}, None)))).
Proof.
  destruct (prop data "tokens") as [[tokens|]|e] eqn:Ht;
    [ | left; eexists; unfold Pages.sign_in; rewrite Ht; reflexivity
      | left; eexists; unfold Pages.sign_in; rewrite Ht; reflexivity ].
  destruct (prop tokens "access_token") as [access|e] eqn:Ha;
    [ | left; eexists; unfold Pages.sign_in; rewrite Ht; cbn [Pages.prop_of];
        rewrite Ha; reflexivity ].
  assert (Hs : exists session, prop tokens "session_token" = Returned session).
  { destruct tokens; try discriminate Ha; eexists; reflexivity. }
  destruct Hs as [session Hs].
  destruct (sign_in_run toS accepts data tokens access session b Ht Ha Hs)
    as (user & Hu & Hrun).
  destruct (accepts (LogoutButton.localStorage b) "access_token"
              (Pages.stored_form toS access)) eqn:Hfirst;
    [ | left; eexists; exact Hrun ].
  right. exists tokens, access.
  split; [ first [ reflexivity | exact Ht ] | ].
  split; [ first [ reflexivity | exact Ha ] | ].
  split; [ first [ reflexivity | exact Hfirst ] | ].
  destruct (accepts (<["access_token" := Pages.stored_form toS access]>
                       (LogoutButton.localStorage b)) "session_token"
              (Pages.stored_form toS
                 (if truthy_opt session then session else Some (JStr ""))))
    eqn:Hsecond.
  - right. exists session, user. split; [ exact Hs | exact Hrun ].
  - left. exists session. split; [ exact Hs | split; [ exact Hsecond | exact Hrun ] ].
Qed.

Lemma handleLogout_sent (b : LogoutButton.Browser) (w : World) :
  sent (LogoutButton.handleLogout b w).2
  = (sent w ++
     match LogoutButton.localStorage b !! "session_token" with
     | Some token =>
         if String.eqb token "" then [] else [LogoutButton.logout_request token]
     | None => []
     end)%list.
Proof.
  unfold LogoutButton.handleLogout. cbn [fst snd].
  destruct (LogoutButton.localStorage b !! "session_token") as [token|]; cbn [truthy_str].
  - destruct (String.eqb token ""); cbn [negb default].
    + rewrite app_nil_r. reflexivity.
    + unfold ApiService.logout. rewrite fetch_then_check_world; [ reflexivity | ].
      intros r w0. destruct (ok r); cbn [negb]; [ | reflexivity ].
      unfold json. destruct (parsed r); reflexivity.
  - rewrite app_nil_r. reflexivity.
Qed.

(** X15: what the form of the login page and of the sign-up page leaves
    behind, whatever the call of the API and the storage do.  Without an
    error both tokens are stored, read from the [tokens] of the answer, and
    the route is [/], which then shows the chat.  With an error the [auth]
    state and the route are as they were, and local storage is too, with one
    exception: when the storage took the access token and then refused the
    session token, the access token stays stored.  So the handler stores all
    or nothing exactly as long as the storage does not refuse its second
    write. *)
Theorem sign_in_stores_both_or_fails (toS : Q -> string)
    (accepts : gmap string string -> string -> string -> bool) (call : Api Json)
    (b : LogoutButton.Browser) (w : World) :
  let after := Pages.submit toS accepts call b w in
  after.2 = (call w).2 /\
  match after.1.2 with
  | None =>
      exists data tokens access session,
        (call w).1 = Returned data /\
        prop data "tokens" = Returned (Some tokens) /\
        prop tokens "access_token" = Returned access /\
        prop tokens "session_token" = Returned session /\
        LogoutButton.localStorage after.1.1
        = <["session_token" :=
              Pages.stored_form toS
                (if truthy_opt session then session else Some (JStr ""))]>
            (<["access_token" := Pages.stored_form toS access]>
               (LogoutButton.localStorage b)) /\
        LogoutButton.location after.1.1 = "/" /\
        Pages.root_route (LogoutButton.auth after.1.1) = Pages.ChatUI
  | Some e =>
      LogoutButton.auth after.1.1 = LogoutButton.auth b /\
      LogoutButton.location after.1.1 = LogoutButton.location b /\
      (after.1.1 = b \/
       exists token session,
         e = Pages.QuotaExceededError /\
         accepts (LogoutButton.localStorage b) "access_token" token = true /\
         accepts (<["access_token" := token]> (LogoutButton.localStorage b))
           "session_token" session = false /\
         LogoutButton.localStorage after.1.1
         = <["access_token" := token]> (LogoutButton.localStorage b))
  end.
Proof.
  cbv zeta. unfold Pages.submit.
  destruct (call w) as [[data|err] w1]; cbn [fst snd];
    [ | split; [ reflexivity | split; [ reflexivity | split; [ reflexivity | left; reflexivity ] ] ] ].
  split; [ reflexivity | ].
  destruct (sign_in_cases toS accepts data b)
    as [[e He] | (tokens & access & Ht & Ha & Hfirst
                  & [(session & Hs & Hsecond & He) | (session & user & Hs & He)])];
    rewrite He; cbn [fst snd LogoutButton.auth LogoutButton.location
                     LogoutButton.localStorage].
  - split; [ reflexivity | split; [ reflexivity | left; reflexivity ] ].
  - split; [ reflexivity | split; [ reflexivity | right ] ].
    exists (Pages.stored_form toS access),
      (Pages.stored_form toS (if truthy_opt session then session else Some (JStr ""))).
    split; [ reflexivity | split; [ exact Hfirst | split; [ exact Hsecond | reflexivity ] ] ].
  - exists data, tokens, access, session.
    split; [ reflexivity | split; [ exact Ht | split; [ exact Ha | split; [ exact Hs | ] ] ] ].
    split; [ reflexivity | split; reflexivity ].
Qed.

(** X16: logging out undoes a sign-in.  After a sign-in that ended without
    an error, the logout handler leaves local storage as it was before the
    sign-in, less the two tokens, and both the [auth] state and a reload of
    the page lead to the login page.  The server is told of the logout exactly
    when the answer of the sign-in carried a session token that is stored as
    a non-empty string, and that string is what the request carries. *)
Theorem logout_undoes_sign_in (toS : Q -> string)
    (accepts : gmap string string -> string -> string -> bool) (data : Json)
    (b b1 : LogoutButton.Browser) (w : World) :
  Pages.sign_in toS accepts data b = (b1, None) ->
  let after := LogoutButton.handleLogout b1 w in
  LogoutButton.localStorage after.1
  = delete "session_token" (delete "access_token" (LogoutButton.localStorage b)) /\
  Pages.root_route (LogoutButton.auth after.1) = Pages.NavigateToLogin /\
  Pages.root_route (Pages.auth_from_storage (LogoutButton.localStorage after.1))
  = Pages.NavigateToLogin /\
  exists tokens session,
    prop data "tokens" = Returned (Some tokens) /\
    prop tokens "session_token" = Returned session /\
    sent after.2
    = (sent w ++
       if truthy_opt session
       then (if String.eqb (Pages.stored_form toS session) "" then []
             else [LogoutButton.logout_request (Pages.stored_form toS session)])
       else [])%list.
Proof.
  intros Hin. cbv zeta.
  destruct (sign_in_cases toS accepts data b)
    as [[e He] | (tokens & access & Ht & Ha & Hfirst
                  & [(session & Hs & Hsecond & He) | (session & user & Hs & He)])];
    rewrite He in Hin; try discriminate Hin.
  injection Hin as <-.
  split; [ | split; [ reflexivity | split ] ].
  - unfold LogoutButton.handleLogout. cbn [fst LogoutButton.localStorage].
    apply map_eq. intros k.
    destruct (decide (k = "session_token")) as [->|Hk1].
    { rewrite !lookup_delete_eq. reflexivity. }
    rewrite !(lookup_delete_ne _ "session_token") by congruence.
    destruct (decide (k = "access_token")) as [->|Hk2].
    { rewrite !lookup_delete_eq. reflexivity. }
    rewrite !(lookup_delete_ne _ "access_token") by congruence.
    rewrite !lookup_insert_ne by congruence. reflexivity.
  - unfold LogoutButton.handleLogout, Pages.auth_from_storage.
    cbn [fst LogoutButton.localStorage].
    rewrite lookup_delete_ne by discriminate. rewrite lookup_delete_eq. reflexivity.
  - exists tokens, session. split; [ exact Ht | split; [ exact Hs | ] ].
    rewrite handleLogout_sent. cbn [LogoutButton.localStorage].
    rewrite lookup_insert_eq.
    destruct (truthy_opt session); reflexivity.
Qed.

Lemma logout_undoes_sign_in_witness :
  let data := JObj [("user", JStr "ann");
                    ("tokens", JObj [("access_token", JStr "a1");
                                     ("session_token", JStr "s1")])] in
  let b1 := (Pages.sign_in (fun _ => "") Pages.unlimited data Pages.signed_out).1 in
  let after := LogoutButton.handleLogout b1 (Pages.token_world JNull) in
  LogoutButton.localStorage after.1
  = delete "session_token" (delete "access_token" ∅) /\
  Pages.root_route (LogoutButton.auth after.1) = Pages.NavigateToLogin /\
  Pages.root_route (Pages.auth_from_storage (LogoutButton.localStorage after.1))
  = Pages.NavigateToLogin /\
  exists tokens session,
    prop data "tokens" = Returned (Some tokens) /\
    prop tokens "session_token" = Returned session /\
    sent after.2
    = ([] ++
       if truthy_opt session
       then (if String.eqb (Pages.stored_form (fun _ => "") session) "" then []
             else [LogoutButton.logout_request (Pages.stored_form (fun _ => "") session)])
       else [])%list.
Proof.
  exact (logout_undoes_sign_in (fun _ => "") Pages.unlimited
           (JObj [("user", JStr "ann");
                  ("tokens", JObj [("access_token", JStr "a1");
                                   ("session_token", JStr "s1")])])
           Pages.signed_out _ (Pages.token_world JNull) eq_refl).
Defined.

(** X17: a reload of the page trusts whatever was stored.  After a sign-in
    that ended without an error the route [/] shows the chat; after a reload
    it does so exactly when the stored form of the answer's access token is
    not the empty string.  So an answer whose [tokens] have no
    [access_token] at all signs the user in for good: the text "undefined" is
    stored and taken for a token. *)
Theorem reload_trusts_the_stored_token (toS : Q -> string)
    (accepts : gmap string string -> string -> string -> bool) (data : Json)
    (b b1 : LogoutButton.Browser) :
  Pages.sign_in toS accepts data b = (b1, None) ->
  Pages.root_route (LogoutButton.auth b1) = Pages.ChatUI /\
  exists tokens access,
    prop data "tokens" = Returned (Some tokens) /\
    prop tokens "access_token" = Returned access /\
    Pages.root_route (Pages.auth_from_storage (LogoutButton.localStorage b1))
    = (if String.eqb (Pages.stored_form toS access) ""
       then Pages.NavigateToLogin else Pages.ChatUI) /\
    (access = None ->
     LogoutButton.localStorage b1 !! "access_token" = Some "undefined" /\
     Pages.root_route (Pages.auth_from_storage (LogoutButton.localStorage b1))
     = Pages.ChatUI).
Proof.
  intros Hin.
  destruct (sign_in_cases toS accepts data b)
    as [[e He] | (tokens & access & Ht & Ha & Hfirst
                  & [(session & Hs & Hsecond & He) | (session & user & Hs & He)])];
    rewrite He in Hin; try discriminate Hin.
  injection Hin as <-.
  split; [ reflexivity | ].
  exists tokens, access. split; [ exact Ht | split; [ exact Ha | ] ].
  assert (Hl : (<["session_token" :=
                    Pages.stored_form toS
                      (if truthy_opt session then session else Some (JStr ""))]>
                  (<["access_token" := Pages.stored_form toS access]>
                     (LogoutButton.localStorage b)) : gmap string string)
               !! "access_token" = Some (Pages.stored_form toS access)).
  { rewrite lookup_insert_ne by discriminate. apply lookup_insert_eq. }
  split.
  - unfold Pages.auth_from_storage. cbn [LogoutButton.localStorage]. rewrite Hl.
    destruct (String.eqb (Pages.stored_form toS access) ""); reflexivity.
  - intros ->. cbn [LogoutButton.localStorage]. split; [ exact Hl | ].
    unfold Pages.auth_from_storage. rewrite Hl. reflexivity.
Qed.

Lemma reload_trusts_the_stored_token_witness :
  let data := JObj [("tokens", JObj [])] in
  let b1 := (Pages.sign_in (fun _ => "") Pages.unlimited data Pages.signed_out).1 in
  Pages.root_route (LogoutButton.auth b1) = Pages.ChatUI /\
  exists tokens access,
    prop data "tokens" = Returned (Some tokens) /\
    prop tokens "access_token" = Returned access /\
    Pages.root_route (Pages.auth_from_storage (LogoutButton.localStorage b1))
    = (if String.eqb (Pages.stored_form (fun _ => "") access) ""
       then Pages.NavigateToLogin else Pages.ChatUI) /\
    (access = None ->
     LogoutButton.localStorage b1 !! "access_token" = Some "undefined" /\
     Pages.root_route (Pages.auth_from_storage (LogoutButton.localStorage b1))
     = Pages.ChatUI).
Proof.
  exact (reload_trusts_the_stored_token (fun _ => "") Pages.unlimited
           (JObj [("tokens", JObj [])]) Pages.signed_out _ eq_refl).
Defined.

(** X19: a sign-in that ends with an error can leave the user signed in.
    When the answer carries tokens, the storage takes the access token and
    refuses the session token, the page shows the error and stays where it
    is, with the [auth] state untouched; but the access token is stored, and
    after a reload the route [/] shows the chat, unless the token is stored
    as the empty string. *)
Theorem refused_session_token_still_signs_in (toS : Q -> string)
    (accepts : gmap string string -> string -> string -> bool) (call : Api Json)
    (b : LogoutButton.Browser) (w : World) (data tokens : Json)
    (access session : option Json) :
  (call w).1 = Returned data ->
  prop data "tokens" = Returned (Some tokens) ->
  prop tokens "access_token" = Returned access ->
  prop tokens "session_token" = Returned session ->
  accepts (LogoutButton.localStorage b) "access_token" (Pages.stored_form toS access)
    = true ->
  accepts (<["access_token" := Pages.stored_form toS access]>
             (LogoutButton.localStorage b)) "session_token"
    (Pages.stored_form toS (if truthy_opt session then session else Some (JStr "")))
    = false ->
  let after := Pages.submit toS accepts call b w in
  after.1.2 = Some Pages.QuotaExceededError /\
  LogoutButton.auth after.1.1 = LogoutButton.auth b /\
  LogoutButton.location after.1.1 = LogoutButton.location b /\
  LogoutButton.localStorage after.1.1 !! "access_token"
    = Some (Pages.stored_form toS access) /\
  Pages.root_route (Pages.auth_from_storage (LogoutButton.localStorage after.1.1))
  = (if String.eqb (Pages.stored_form toS access) ""
     then Pages.NavigateToLogin else Pages.ChatUI).
Proof.
  intros Hcall Ht Ha Hs Hfirst Hsecond. cbv zeta. unfold Pages.submit.
  destruct (call w) as [o w1]. cbn [fst] in Hcall. subst o.
  destruct (sign_in_run toS accepts data tokens access session b Ht Ha Hs)
    as (user & _ & Hrun).
  rewrite Hfirst, Hsecond in Hrun. rewrite Hrun.
  cbn [fst snd LogoutButton.auth LogoutButton.location LogoutButton.localStorage].
  split; [ reflexivity | split; [ reflexivity | split; [ reflexivity | ] ] ].
  unfold Pages.auth_from_storage. rewrite lookup_insert_eq.
  split; [ reflexivity | ].
  destruct (String.eqb (Pages.stored_form toS access) ""); reflexivity.
Qed.

(** The storage takes four bytes a value; the session token has more. *)
Lemma refused_session_token_still_signs_in_witness :
  let after :=
    Pages.submit (fun _ => "") (Pages.room_for 4) (ApiService.login "ann@example.org" "pw")
      Pages.signed_out
      (Pages.token_world (JObj [("access_token", JStr "a1");
                                ("session_token", JStr "s-0001")])) in
  after.1.2 = Some Pages.QuotaExceededError /\
  LogoutButton.auth after.1.1 = None /\
  LogoutButton.location after.1.1 = "/login" /\
  LogoutButton.localStorage after.1.1 !! "access_token" = Some "a1" /\
  Pages.root_route (Pages.auth_from_storage (LogoutButton.localStorage after.1.1))
  = Pages.ChatUI.
Proof.
  exact (refused_session_token_still_signs_in (fun _ => "") (Pages.room_for 4)
           (ApiService.login "ann@example.org" "pw") Pages.signed_out
           (Pages.token_world (JObj [("access_token", JStr "a1");
                                     ("session_token", JStr "s-0001")]))
           (JObj [("user", JStr "ann");
                  ("tokens", JObj [("access_token", JStr "a1");
                                   ("session_token", JStr "s-0001")])])
           (JObj [("access_token", JStr "a1"); ("session_token", JStr "s-0001")])
           (Some (JStr "a1")) (Some (JStr "s-0001"))
           eq_refl eq_refl eq_refl eq_refl eq_refl eq_refl).
Defined.

End ClientFacts.

(** * Properties of the memory core, as modelled from the specification *)

Module AggregatorFacts.
Import Text Memory Aggregator.

Section Budget.

Context {A : Type}.
Variable size : A -> nat.

Lemma take_within_fits (budget : nat) (l : list A) :
  sum_sizes size (take_within size budget l) <= budget.
Proof.
  revert budget. induction l as [|x rest IH]; intros budget; cbn.
  - lia.
  - destruct (Nat.leb (size x) budget) eqn:Hfit; cbn.
    + apply Nat.leb_le in Hfit. specialize (IH (budget - size x)). lia.
    + lia.
Qed.






Lemma sum_sizes_app (l r : list A) :
  sum_sizes size (l ++ r) = sum_sizes size l + sum_sizes size r.
Proof. induction l as [|x l IH]; cbn; [ reflexivity | rewrite IH; lia ]. Qed.

(** The property has one solution: it says what the cut is. *)
Lemma longest_within_unique (budget : nat) (ranked t1 t2 : list A) :
  longest_within size budget ranked t1 -> longest_within size budget ranked t2 ->
  t1 = t2.
Proof.
  intros (H1 & r1 & E1 & N1) (H2 & r2 & E2 & N2).
  revert ranked t2 r1 r2 budget H1 E1 N1 H2 E2 N2.
  induction t1 as [|x t1 IH]; intros ranked t2 r1 r2 budget H1 E1 N1 H2 E2 N2.
  - destruct t2 as [|y t2]; [ reflexivity | exfalso ].
    rewrite E1 in E2. cbn in E2. rewrite E2 in N1. cbn in N1, H2. lia.
  - destruct t2 as [|y t2].
    + exfalso. rewrite E2 in E1. cbn in E1. rewrite E1 in N2. cbn in N2, H1. lia.
    + rewrite E1 in E2. cbn in E2. injection E2 as <- E2. f_equal.
      cbn in H1, H2, N1, N2.
      apply (IH (t1 ++ r1)%list t2 r1 r2 (budget - size x)).
      * lia.
      * reflexivity.
      * destruct r1; [ exact I | lia ].
      * lia.
      * exact E2.
      * destruct r2; [ exact I | lia ].
Qed.

End Budget.

(** C1: whatever the backends returned and whatever the budget, the size that
    [aggregate] reports is the sum of the sizes of the items it kept and is
    within the budget; and from two empty results it makes the empty context,
    whatever their status. *)
Theorem aggregate_within_budget (similarity : string -> string -> Q) (threshold : Q)
    (size_of : MemoryItem -> nat) (raw : RawMemoryResults) (budget : nat)
    (semantic_status fact_status : Status) :
  total_size (aggregate similarity threshold size_of raw budget) <= budget /\
  total_size (aggregate similarity threshold size_of raw budget)
    = sum_sizes (fun t => size_of (item t))
        (items (aggregate similarity threshold size_of raw budget)) /\
  aggregate similarity threshold size_of
    {| from_semantic := no_result; semantic_status := semantic_status;
       from_fact := no_result; fact_status := fact_status |} budget
    = empty_context.
Proof.
  split; [ | split ].
  - unfold aggregate. cbn [total_size]. apply take_within_fits.
  - reflexivity.
  - reflexivity.
Qed.

(** *** Deduplication *)

Section Sorting.

Context {A : Type}.
Variable le : A -> A -> bool.





Section Sorted.

Hypothesis le_total : forall a b, le a b = true \/ le b a = true.
Hypothesis le_trans : forall a b c, le a b = true -> le b c = true -> le a c = true.



End Sorted.

Variable R : A -> A -> Prop.
Hypothesis R_sym : forall a b, R a b -> R b a.



End Sorting.


Section Dedup.

Variable similarity : string -> string -> Q.
Variable threshold : Q.




















End Dedup.









End AggregatorFacts.
